(** * State-reference normalization and state materialization of the
    Mitosis component compiler

    Sources embedded here:
    - [packages/core/src/generators/angular/helpers/index.ts]
      ([transformState], [hasFirstChildKeyAttribute]);
    - the state helpers of the React generator ([stripThisRefs],
      [processHookCode], [valueMapper], [getSetStateFnName],
      [processStateValue], [getUseStateCode], [updateStateSetters],
      [updateStateSettersInCode]).

    Helpers of the repository that these functions call and that are not
    among the embedded sources are parameters of the functions that call
    them, or are modelled from the specification where a statement needs
    their result; each such definition says so.

    JavaScript strings are modelled as [string] (sequences of bytes); every
    pattern the code searches for is ASCII, so a search over the UTF-8 bytes
    finds the same occurrences as one over UTF-16 code units. *)

From stdpp Require Import gmap strings list.
From Stdlib Require Import Ascii.
From Equations Require Import Equations.
From Equations.Prop Require Import Logic.

(** ** JavaScript string primitives used by the sources *)

Module JsString.

(** The line feed of the template literals. *)
Definition LF : string := String "010"%char "".

(** [Boolean(s)] for a string: the empty string is the only falsy one. *)
Definition truthy (s : string) : bool :=
  match s with
  | "" => false
  | String _ _ => true
  end.

(** [Some rest] when [s] is [p] followed by [rest]. *)
Fixpoint dropPrefix (p s : string) : option string :=
  match p, s with
  | "", _ => Some s
  | String a p', String b s' =>
    if decide (a = b) then dropPrefix p' s' else None
  | String _ _, "" => None
  end.

(** [s.startsWith(pat)] *)
Definition startsWith (s pat : string) : bool :=
  match dropPrefix pat s with
  | Some _ => true
  | None => false
  end.

(** [s.includes(pat)] *)
Fixpoint includes (s pat : string) : bool :=
  startsWith s pat ||
  match s with
  | "" => false
  | String _ s' => includes s' pat
  end.

(** [ls.join(sep)] *)
Definition join (ls : list string) (sep : string) : string :=
  String.concat sep ls.

(** [s.replace(pat, rep)] for a string pattern: the first occurrence only. *)
Fixpoint replaceFirst (s pat rep : string) : string :=
  match dropPrefix pat s with
  | Some rest => rep +:+ rest
  | None =>
    match s with
    | "" => ""
    | String c s' => String c (replaceFirst s' pat rep)
    end
  end.

(** The lines of a template literal, one string per line. *)
Definition lines (ls : list string) : string := join ls LF.

(** How many times the character [c] occurs in [s]. *)
Fixpoint countChar (c : ascii) (s : string) : nat :=
  match s with
  | "" => 0
  | String a s' => (if decide (a = c) then 1 else 0) + countChar c s'
  end.

End JsString.
Import JsString.

(** ** Component IR

    Only the fields the embedded functions read or write are kept. *)

Inductive StateValueType := function | getter | method | property.

#[global] Instance StateValueType_eq_dec : EqDecision StateValueType.
Proof. solve_decision. Defined.

Module StateValue.
Record t := mk {
  code : string;
  type : StateValueType;
  typeParameter : option string;
}.

(** [stateVal.code = c] *)
Definition with_code (c : string) (v : t) : t :=
  {| code := c; type := type v; typeParameter := typeParameter v |}.
End StateValue.

(** A hook; [code] is the one field the embedded functions read or write. *)
Module BaseHook.
Record t := mk { code : string }.
End BaseHook.

Module Binding.
Record t := mk {
  code : string;
  arguments : option (list string);
}.

(** [{ ...values, code: c }] *)
Definition with_code (c : string) (b : t) : t :=
  {| code := c; arguments := arguments b |}.
End Binding.

(** A node of the tree. The sources guard against a missing [children] and a
    missing [bindings] table, so both are optional here. *)
#[local] Unset Elimination Schemes.
Inductive MitosisNode := Node {
  name : string;
  bindings : option (gmap string Binding.t);
  children : option (list MitosisNode);
}.
#[local] Set Elimination Schemes.

(** [json.state] is a JavaScript object: its keys are pairwise distinct, and
    [Object.entries] lists them in a fixed order (the declaration order for
    identifier keys). It is kept as the list of its entries in that order; an
    entry may hold [undefined]. The entries hold distinct objects (the IR is
    a tree), so a write through [json.state[key]] reaches one entry only. *)
Abbreviation State := (list (string * option StateValue.t)).

Record Hooks := { onInit : option BaseHook.t }.

(** [nodes] is [json.children], the root nodes of the component. *)
Record MitosisComponent := {
  state : State;
  hooks : Hooks;
  nodes : list MitosisNode;
}.

(** The code of the init hook, [''] when the hook is absent. *)
Definition hookCode (h : option BaseHook.t) : string :=
  match h with
  | Some h => BaseHook.code h
  | None => ""
  end.

(** ** [generators/angular/helpers] *)

Module Angular.

Record StripStateAndPropsRefsOptions := { replaceWith : string }.

(** [json.state[key]!.code = c]: a write through the key. *)
Definition set_state_code (key c : string) (st : State) : State :=
  (λ e : string * option StateValue.t,
     if decide (e.1 = key) then (e.1, StateValue.with_code c <$> e.2) else e)
  <$> st.

Section transformState.

(** [stripStateAndPropsRefs] lives in [helpers/strip-state-and-props-refs],
    which is not among the embedded sources: [transformState] is parametric
    in it. *)
Variable stripStateAndPropsRefs :
  string → StripStateAndPropsRefsOptions → string.

(** The body of the [forEach] callback, on the IR as it is when the entry is
    reached. [value] is the entry's object; no earlier iteration wrote to it
    (keys are distinct), so reading it from the entries array is reading it
    from [json.state]. The hook the statement is prepended to is the existing
    one when its code is non-empty and a fresh [{ code: '' }] otherwise. *)
Definition visit (json : MitosisComponent)
    (entry : string * option StateValue.t) : MitosisComponent :=
  let '(key, value) := entry in
  match value with
  | Some value =>
    if decide (StateValue.type value = property) then
      if truthy (StateValue.code value) &&
         (includes (StateValue.code value) "state." ||
          includes (StateValue.code value) "props.")
      then
        let code :=
          stripStateAndPropsRefs (StateValue.code value)
            {| replaceWith := "this" |} in
        let state' := set_state_code key "null" (state json) in
        let hook :=
          match onInit (hooks json) with
          | Some h =>
            if truthy (BaseHook.code h) then h else {| BaseHook.code := "" |}
          | None => {| BaseHook.code := "" |}
          end in
        {| state := state';
           hooks := {| onInit := Some {| BaseHook.code :=
             LF +:+ "this." +:+ key +:+ " = " +:+ code +:+ ";" +:+ LF
                +:+ BaseHook.code hook |} |};
           nodes := nodes json |}
      else json
    else json
  | None => json
  end.

(** [Object.entries(json.state).reverse().forEach(...)] *)
Definition transformState (json : MitosisComponent) : MitosisComponent :=
  foldl visit json (reverse (state json)).

End transformState.

Definition hasFirstChildKeyAttribute (node : MitosisNode) : bool :=
  match children node with
  | None | Some [] => false
  | Some (firstChild :: _) =>
    match bindings firstChild with
    | None => false
    | Some firstChildBinding =>
      match firstChildBinding !! "key" with
      | Some key => truthy (Binding.code key)
      | None => false
      end
    end
  end.

(** [${isTs ? text : ''}] *)
Definition whenTs (isTs : bool) (text : string) : string :=
  if isTs then text else "".

(** The object [HELPER_FUNCTIONS(isTs)], as its entries in key order. *)
Definition HELPER_FUNCTIONS (isTs : bool) : list (string * string) :=
  [ ("useObjectWrapper", lines
      [ "useObjectWrapper(...args" +:+ whenTs isTs ": any[]" +:+ ") {";
        "    let obj = {}";
        "    args.forEach((arg) => {";
        "      obj = { ...obj, ...arg };";
        "    });";
        "    return obj;";
        "  }" ]);
    ("useObjectDotValues", lines
      [ "useObjectDotValues(obj" +:+ whenTs isTs ": any" +:+ ")"
          +:+ whenTs isTs ": any[]" +:+ ") {";
        "    return Object.values(obj);";
        "  }" ]);
    ("useTypeOf", lines
      [ "useTypeOf(obj" +:+ whenTs isTs ": any" +:+ ")"
          +:+ whenTs isTs ": string" +:+ ") {";
        "    return typeof obj;";
        "  }" ]);
    ("useJsonStringify", lines
      [ "useJsonStringify(...args" +:+ whenTs isTs ": any" +:+ ")"
          +:+ whenTs isTs ": string" +:+ ") {";
        "    return JSON.stringify(...args);";
        "  }" ]);
    ("setAttributes", lines
      [ "setAttributes(el" +:+ whenTs isTs ": HTMLElement" +:+ ", value"
          +:+ whenTs isTs ": any" +:+ ", changes" +:+ whenTs isTs "?: any"
          +:+ ") {";
        "    if (!el) {";
        "      return;";
        "    }";
        "    const target = typeof changes === 'undefined' ? value : changes;";
        "    Object.keys(target).forEach((key) => {";
        "      if (key.startsWith('on')) {";
        "        if (this._listenerFns.has(key)) {";
        "          this._listenerFns.get(key)" +:+ whenTs isTs "!" +:+ "();";
        "        }";
        "        this._listenerFns.set(key, this.renderer.listen(";
        "          el,";
        "          key.replace('on', '').toLowerCase(),";
        "          target[key]";
        "        ));";
        "      } else {";
        "        this.renderer.setAttribute(el, key.toLowerCase(), target[key] ?? '');";
        "      }";
        "    });";
        "  }" ]) ].

(** [HELPER_FUNCTIONS()] is the call without argument: [isTs] is
    [undefined], which is falsy. *)
Definition getAppropriateTemplateFunctionKeys (code : string) : list string :=
  List.filter (λ key, includes code key) (HELPER_FUNCTIONS false).*1.

(** [getDefaultProps] destructures the one field [defaultProps] of the
    component, an object from property names to state values, absent on a
    component without defaults. Every key that [Object.keys] lists is an own
    property, so the ['undefined'] of the conditional is out of reach; an
    [undefined] value prints as [undefined] all the same, through the template
    literal. *)
Definition getDefaultProps (defaultProps : option State) : string :=
  match defaultProps with
  | None => ""
  | Some defaultProps =>
    let defalutPropsString :=
      join
        (map (λ entry : string * option StateValue.t,
                let '(prop, v) := entry in
                let value :=
                  match v with
                  | Some v => StateValue.code v
                  | None => "undefined"
                  end in
                prop +:+ ": " +:+ value)
             defaultProps)
        "," in
    "const defaultProps = {" +:+ defalutPropsString +:+ "};" +:+ LF
  end.

End Angular.

(** ** The syntax trees handed to the setter transformer

    The setter rewrite builds its replacement with Babel's node builders
    ([types.identifier], [types.callExpression]) and reads [path.node.right].
    The fragment of Babel's expression nodes below is what is needed to state
    what it builds. *)

Module Babel.

#[local] Unset Elimination Schemes.
Inductive Expression :=
| Identifier (name : string)
| NumericLiteral (raw : string)
| StringLiteral (value : string)
| ThisExpression
| MemberExpression (object property : Expression)
| BinaryExpression (operator : string) (left right : Expression)
| AssignmentExpression (operator : string) (left right : Expression)
| ConditionalExpression (test consequent alternate : Expression)
| CallExpression (callee : Expression) (arguments : list Expression).
#[local] Set Elimination Schemes.

(** The node of a path that stands on an assignment expression. *)
Record AssignmentNode := {
  operator : string;
  left : Expression;
  right : Expression;
}.

Record NodePath := { node : AssignmentNode }.

(** [types.identifier(name)] and [types.callExpression(callee, args)] *)
Definition identifier (name : string) : Expression := Identifier name.
Definition callExpression (callee : Expression) (args : list Expression)
  : Expression := CallExpression callee args.

End Babel.
Import Babel.

(** ** The React state helpers *)

Module React.

Inductive StateType := useState | mobx | valtio | solid | builder | variables.

#[global] Instance StateType_eq_dec : EqDecision StateType.
Proof. solve_decision. Defined.

Record ToReactOptions := {
  stateType : StateType;
  typescript : bool;
}.

(** *** [str.replace(/this\.([a-zA-Z_\$0-9]+)/g, '$1')] *)

(** The character class [[a-zA-Z_\$0-9]]. *)
Definition isIdentChar (c : ascii) : bool :=
  let n := nat_of_ascii c in
  (97 <=? n) && (n <=? 122) || (65 <=? n) && (n <=? 90) ||
  (n =? 95) || (n =? 36) || (48 <=? n) && (n <=? 57).

(** The longest run of class characters at the head of [s] (the greedy [+])
    and what follows it. *)
Fixpoint spanIdent (s : string) : string * string :=
  match s with
  | String c s' =>
    if isIdentChar c
    then let '(id, rest) := spanIdent s' in (String c id, rest)
    else ("", s)
  | "" => ("", "")
  end.

(** A match of the pattern at the head of [s]: the captured group and the
    text after the match. *)
Definition matchThisRef (s : string) : option (string * string) :=
  match dropPrefix "this." s with
  | Some s' =>
    let '(id, rest) := spanIdent s' in
    if truthy id then Some (id, rest) else None
  | None => None
  end.

(** The global replace: the leftmost match is replaced by its group and the
    search resumes after the match; a character where no match starts is
    copied. *)
Equations replaceThisRefs (s : string) : string by wf (String.length s) lt :=
  replaceThisRefs s with inspect (matchThisRef s) := {
    | exist _ (Some (id, rest)) _ => id +:+ replaceThisRefs rest
    | exist _ None _ with s := {
      | "" => ""
      | String c s' => String c (replaceThisRefs s') } }.
Next Obligation.
  (* what follows a match is shorter than the text the match starts *)
  assert (∀ p t t', dropPrefix p t = Some t' →
            String.length t = String.length p + String.length t') as Hdrop.
  { induction p as [|a p IH]; intros t t'; simpl; [by intros [= <-]|].
    destruct t as [|b t]; [done|]. case_decide; [|done].
    intros Hd%IH. simpl. lia. }
  assert (∀ t, String.length (spanIdent t).2 ≤ String.length t) as Hspan.
  { induction t as [|c t IH]; simpl; [lia|].
    destruct (isIdentChar c); simpl; [|lia].
    destruct (spanIdent t); simpl in *; lia. }
  unfold matchThisRef in *.
  destruct (dropPrefix "this." s) as [s'|] eqn:Hd; [|done].
  apply Hdrop in Hd. specialize (Hspan s').
  destruct (spanIdent s') as [i r]; simpl in *.
  destruct (truthy i); [|done].
  match goal with H : Some _ = Some _ |- _ => injection H as <- <- end. lia.
Qed.

(** Removes all [this.] references. *)
Definition stripThisRefs (str : string) (options : ToReactOptions) : string :=
  if decide (stateType options ≠ useState) then str
  else replaceThisRefs str.

(** *** [capitalize]

    Modelled from the spec: [capitalize] ([helpers/capitalize]) is not among
    the embedded sources. "capitalize the field name": the first character is
    put in upper case (ASCII letters), the rest is kept. *)
Definition toUpperCase (c : ascii) : ascii :=
  let n := nat_of_ascii c in
  if (97 <=? n) && (n <=? 122) then ascii_of_nat (n - 32) else c.

Definition capitalize (str : string) : string :=
  match str with
  | "" => ""
  | String c rest => String (toUpperCase c) rest
  end.

Definition getSetStateFnName (stateName : string) : string :=
  "set" +:+ capitalize stateName.

(** The options [getStateObjectStringFromComponent] is called with. The
    value mapper gets the code, the kind of the entry, a third argument that
    the mapper of this file ignores (its type [A] is not in the embedded
    sources) and the key, which may be absent. *)
Module StateObjectStringOptions.
Record t (A : Type) := mk {
  format : string;
  keyPrefix : string;
  valueMapper : string → string → A → option string → string;
}.
Arguments mk {A}.
Arguments format {A}.
Arguments keyPrefix {A}.
Arguments valueMapper {A}.
End StateObjectStringOptions.

Definition getReactVariantStateImportString (hasState : bool)
    (options : ToReactOptions) : string :=
  if negb hasState then ""
  else if decide (stateType options = valtio)
  then "import { useLocalProxy } from 'valtio/utils';"
  else if decide (stateType options = solid)
  then "import { useMutable } from 'react-solid-state';"
  else if decide (stateType options = mobx)
  then "import { useLocalObservable, observer } from 'mobx-react-lite';"
  else "".

Section helpers.

(** Babel's parser and generator, on the fragment of the syntax above. *)
Variable parse : string → Expression.
Variable generate : Expression → string.

(** Which left-hand sides are direct references to a state field, and the
    name of the field ([propertyName]): decided inside
    [transformStateSetters]. *)
Variable stateFieldName : Expression → option string.

(** Helpers of the repository that are not among the embedded sources; the
    functions below are parametric in them. *)
Variable processBinding : string → ToReactOptions → string.
Variable getTypedFunction : string → bool → option string → string.
Variable replaceGetterWithFunction : string → string.
Variable prefixWithFunction : string → string.

(** Modelled from the spec: [transformStateSetters]
    ([helpers/transform-state-setters]) is not among the embedded sources.
    The spec: "find assignment expressions whose left-hand side is a direct
    reference to a known state field [...] and rewrite the whole assignment
    expression into a call to that field's generated setter", the call
    "replacing the assignment node in place, so surrounding statement
    structure [...] is unaffected". The call is what the transformer of the
    caller returns for the path and the field name; it is put in place of the
    assignment as it is. *)
Fixpoint rewriteAssignments (transformer : NodePath → string → Expression)
    (e : Expression) : Expression :=
  match e with
  | AssignmentExpression op l r =>
    match stateFieldName l with
    | Some propertyName =>
      transformer
        {| node := {| operator := op; left := l; right := r |} |} propertyName
    | None =>
      AssignmentExpression op (rewriteAssignments transformer l)
        (rewriteAssignments transformer r)
    end
  | MemberExpression o p =>
    MemberExpression (rewriteAssignments transformer o)
      (rewriteAssignments transformer p)
  | BinaryExpression op l r =>
    BinaryExpression op (rewriteAssignments transformer l)
      (rewriteAssignments transformer r)
  | ConditionalExpression t c a =>
    ConditionalExpression (rewriteAssignments transformer t)
      (rewriteAssignments transformer c) (rewriteAssignments transformer a)
  | CallExpression f args =>
    CallExpression (rewriteAssignments transformer f)
      (map (rewriteAssignments transformer) args)
  | Identifier _ | NumericLiteral _ | StringLiteral _ | ThisExpression => e
  end.

Definition transformStateSetters (value : string)
    (transformer : NodePath → string → Expression) : string :=
  generate (rewriteAssignments transformer (parse value)).

Definition updateStateSettersInCode (value : string)
    (options : ToReactOptions) : string :=
  if decide (stateType options ≠ useState) then value
  else
    transformStateSetters value
      (λ path propertyName,
         callExpression (identifier (getSetStateFnName propertyName))
           [right (node path)]).

Definition processHookCode (str : string) (options : ToReactOptions) : string :=
  processBinding (updateStateSettersInCode str options) options.

Definition valueMapper (options : ToReactOptions) (val : string) : string :=
  let x := processHookCode val options in
  stripThisRefs x options.

Definition processStateValue (options : ToReactOptions)
    (entry : string * option StateValue.t) : string :=
  let mapValue := valueMapper options in
  let '(key, stateVal) := entry in
  match stateVal with
  | None => ""
  | Some stateVal =>
    let value :=
      if truthy (StateValue.code stateVal) then StateValue.code stateVal
      else "" in
    let type := StateValue.type stateVal in
    let typeParameter := StateValue.typeParameter stateVal in
    let stateType :=
      match StateValue.typeParameter stateVal with
      | Some tp =>
        if typescript options && truthy tp then "<" +:+ tp +:+ ">" else ""
      | None => ""
      end in
    match type with
    | getter =>
      getTypedFunction (mapValue (replaceGetterWithFunction value))
        (typescript options) typeParameter
    | function =>
      getTypedFunction (mapValue value) (typescript options) typeParameter
    | method =>
      getTypedFunction (mapValue (prefixWithFunction value))
        (typescript options) typeParameter
    | property =>
      "const [" +:+ key +:+ ", " +:+ getSetStateFnName key
        +:+ "] = useState" +:+ stateType +:+ "(() => ("
        +:+ mapValue value +:+ "))"
    end
  end.

Definition getUseStateCode (json : MitosisComponent)
    (options : ToReactOptions) : string :=
  let lineItemDelimiter := LF +:+ LF +:+ LF in
  let stringifiedState := map (processStateValue options) (state json) in
  join stringifiedState lineItemDelimiter.

(** The body of the [for (const key in item.bindings)] loop. *)
Definition updateBinding (options : ToReactOptions) (values : Binding.t)
  : Binding.t :=
  let newValue := updateStateSettersInCode (Binding.code values) options in
  if decide (newValue ≠ Binding.code values)
  then Binding.with_code newValue values
  else values.

(** The traversal callback on a node and, as the traversal goes on, on the
    nodes below it. *)
Fixpoint updateNode (options : ToReactOptions) (item : MitosisNode)
  : MitosisNode :=
  match item with
  | Node n b c =>
    Node n
      ((λ bs : gmap string Binding.t, updateBinding options <$> bs) <$> b)
      (map (updateNode options) <$> c)
  end.

(** [updateStateSetters] returns nothing and writes to [json]: the IR it
    leaves is returned. Only nodes pass [isMitosisNode]. *)
Definition updateStateSetters (json : MitosisComponent)
    (options : ToReactOptions) : MitosisComponent :=
  if decide (stateType options ≠ useState) then json
  else
    {| state := state json;
       hooks := hooks json;
       nodes := map (updateNode options) (nodes json) |}.

(** Two more helpers of the repository that are not among the embedded
    sources. [getStateObjectStringFromComponent] is called with the component
    alone or with options. *)
Variable Ignored : Type.
Variable getStateObjectStringFromComponent :
  MitosisComponent → option (StateObjectStringOptions.t Ignored) → string.
Variable getFunctionString : string → string.

(** The value mapper that [getReactVariantStateString] passes for the
    [variables] state type. *)
Definition variablesValueMapper (code type : string) (_ : Ignored)
    (key : option string) : string :=
  match key with
  | Some key =>
    if truthy key then
      let constPrefix :=
        if negb (startsWith code "function") then key +:+ " = " else "" in
      if decide (type = "getter") then
        constPrefix +:+ getFunctionString (replaceFirst code "get " "")
      else if decide (type = "function") then
        if startsWith code "async" then code
        else constPrefix +:+ getFunctionString code
      else code
    else code
  | None => code
  end.

Definition getReactVariantStateString (hasState : bool)
    (options : ToReactOptions) (json : MitosisComponent)
    (useStateCode : string) : string :=
  if hasState then
    if decide (stateType options = mobx) then
      "const state = useLocalObservable(() => ("
        +:+ getStateObjectStringFromComponent json None +:+ "));"
    else if decide (stateType options = useState) then useStateCode
    else if decide (stateType options = solid) then
      "const state = useMutable("
        +:+ getStateObjectStringFromComponent json None +:+ ");"
    else if decide (stateType options = builder) then
      "const state = useBuilderState("
        +:+ getStateObjectStringFromComponent json None +:+ ");"
    else if decide (stateType options = variables) then
      getStateObjectStringFromComponent json
        (Some {| StateObjectStringOptions.format := "variables";
                 StateObjectStringOptions.keyPrefix := "const";
                 StateObjectStringOptions.valueMapper :=
                   variablesValueMapper |})
    else
      "const state = useLocalProxy("
        +:+ getStateObjectStringFromComponent json None +:+ ");"
  else "".

End helpers.

End React.

(** ** Vocabulary of the statements about [transformState] *)

Module Normalization.
Import Angular.

(** The test [transformState] makes on an entry: a [property] entry whose code
    is non-empty and includes [state.] or [props.]. *)
Definition relocated (value : option StateValue.t) : bool :=
  match value with
  | Some v =>
    bool_decide (StateValue.type v = property) &&
    truthy (StateValue.code v) &&
    (includes (StateValue.code v) "state." ||
     includes (StateValue.code v) "props.")
  | None => false
  end.

(** What the pass leaves of a relocated entry. *)
Definition placeholder (value : option StateValue.t) : option StateValue.t :=
  StateValue.with_code "null" <$> value.

Definition normalizedEntry (e : string * option StateValue.t)
  : string * option StateValue.t :=
  if relocated e.2 then (e.1, placeholder e.2) else e.

(** The entries the pass has no business with: [undefined], an entry that is
    not a [property], one whose code is empty, one whose code includes neither
    [state.] nor [props.]. *)
Definition passedOver (value : option StateValue.t) : Prop :=
  match value with
  | None => True
  | Some v =>
    StateValue.type v ≠ property ∨ StateValue.code v = "" ∨
    (includes (StateValue.code v) "state." = false ∧
     includes (StateValue.code v) "props." = false)
  end.

(** The first relocated entry in declaration order. *)
Fixpoint firstRelocated (l : State) : option (string * StateValue.t) :=
  match l with
  | [] => None
  | (key, Some v) :: l' =>
    if relocated (Some v) then Some (key, v) else firstRelocated l'
  | (_, None) :: l' => firstRelocated l'
  end.

Section statements.
Variable stripStateAndPropsRefs :
  string → StripStateAndPropsRefsOptions → string.

(** The text put in front of the init hook for the entry [key]. *)
Definition initStatement (key : string) (value : StateValue.t) : string :=
  LF +:+ "this." +:+ key +:+ " = "
     +:+ stripStateAndPropsRefs (StateValue.code value)
           {| replaceWith := "this" |}
     +:+ ";" +:+ LF.

(** The statements of the relocated entries of [l], first entry first. *)
Fixpoint initStatements (l : State) : string :=
  match l with
  | [] => ""
  | (key, Some v) :: l' =>
    if relocated (Some v) then initStatement key v +:+ initStatements l'
    else initStatements l'
  | (_, None) :: l' => initStatements l'
  end.

(** The state once the entries of [l] have been visited: one write through
    the key for each relocated entry. *)
Definition nullified (l st : State) : State :=
  foldr (λ e st', if relocated e.2 then set_state_code e.1 "null" st' else st')
    st l.

(** The hooks once the entries of [l] have been visited. *)
Definition hooksAfter (l : State) (h : Hooks) : Hooks :=
  if existsb (λ e, relocated e.2) l
  then {| onInit := Some {| BaseHook.code :=
            initStatements l +:+ hookCode (onInit h) |} |}
  else h.

End statements.

(** "The init-hook statement sequence assigns a before b": the first
    assignment to [this.a] in the hook code comes before the first one to
    [this.b]. *)
Definition assignsBefore (hook a b : string) : bool :=
  match String.index 0 ("this." +:+ a +:+ " = ") hook,
        String.index 0 ("this." +:+ b +:+ " = ") hook with
  | Some i, Some j => i <? j
  | _, _ => false
  end.

End Normalization.

(** ** Vocabulary of the statements about [stripThisRefs]

    A piece of code seen as the receiver-prefixed references it holds, each
    with the text up to the next one: [this.<ident><text>]. *)

Module Stripping.
Import React.

(** The references written with their receiver, and written bare. *)
Fixpoint withReceiver (refs : list (string * string)) : string :=
  match refs with
  | [] => ""
  | (ident, text) :: refs' =>
    "this." +:+ ident +:+ text +:+ withReceiver refs'
  end.

Fixpoint bare (refs : list (string * string)) : string :=
  match refs with
  | [] => ""
  | (ident, text) :: refs' => ident +:+ text +:+ bare refs'
  end.

(** A non-empty run of characters of the class [[a-zA-Z_\$0-9]]. *)
Fixpoint allIdentChars (s : string) : bool :=
  match s with
  | "" => true
  | String c s' => isIdentChar c && allIdentChars s'
  end.

Definition isIdentifier (s : string) : bool := truthy s && allIdentChars s.

Definition startsWithIdentChar (s : string) : bool :=
  match s with
  | String c _ => isIdentChar c
  | "" => false
  end.

(** Each identifier is one, and ends where its text starts: the text does
    not start with a character of the class, and is empty only at the end
    of the code. The texts hold no [this.] of their own. *)
Fixpoint wellFormed (refs : list (string * string)) : bool :=
  match refs with
  | [] => true
  | (ident, text) :: refs' =>
    isIdentifier ident &&
    negb (includes text "this.") &&
    negb (startsWithIdentChar text) &&
    (truthy text || match refs' with [] => true | _ :: _ => false end) &&
    wellFormed refs'
  end.

End Stripping.

(** ** Vocabulary of the statements about the node tree *)

Module Tree.

(** The child of a node at an index, the node at the end of a path of
    child indices, and the binding of a node under a key. *)
Definition childAt (i : nat) (n : MitosisNode) : option MitosisNode :=
  match children n with
  | Some cs => cs !! i
  | None => None
  end.

Fixpoint nodeAt (path : list nat) (n : MitosisNode) : option MitosisNode :=
  match path with
  | [] => Some n
  | i :: path' =>
    match childAt i n with
    | Some c => nodeAt path' c
    | None => None
    end
  end.

Definition bindingAt (key : string) (n : MitosisNode) : option Binding.t :=
  match bindings n with
  | Some bs => bs !! key
  | None => None
  end.

(** The node of a component under a root index and a path. *)
Definition componentNodeAt (root : nat) (path : list nat)
    (json : MitosisComponent) : option MitosisNode :=
  match nodes json !! root with
  | Some n => nodeAt path n
  | None => None
  end.

End Tree.

(** ** Concrete instances of the absent helpers, for the examples *)

Module Examples.
Import Angular React Normalization.

(** A match of [state.] or [props.] at the head of [s]: what follows it. *)
Definition matchStateOrProps (s : string) : option string :=
  match dropPrefix "state." s with
  | Some rest => Some rest
  | None => dropPrefix "props." s
  end.

(** Modelled from the spec: [stripStateAndPropsRefs]
    ([helpers/strip-state-and-props-refs]) is not among the embedded sources.
    "rewrite all such references to a unified receiver form": every [state.]
    and every [props.] becomes [replaceWith] followed by a dot. *)
Equations stripStateAndPropsRefs (code : string)
    (options : StripStateAndPropsRefsOptions) : string
    by wf (String.length code) lt :=
  stripStateAndPropsRefs code options with inspect (matchStateOrProps code) := {
    | exist _ (Some rest) _ =>
      replaceWith options +:+ "." +:+ stripStateAndPropsRefs rest options
    | exist _ None _ with code := {
      | "" => ""
      | String c code' => String c (stripStateAndPropsRefs code' options) } }.
Next Obligation.
  (* what follows a match is shorter than the text the match starts *)
  assert (∀ p t t', dropPrefix p t = Some t' →
            String.length t = String.length p + String.length t') as Hdrop.
  { induction p as [|a p IH]; intros t t'; simpl; [by intros [= <-]|].
    destruct t as [|b t]; [done|]. case_decide; [|done].
    intros Hd%IH. simpl. lia. }
  unfold matchStateOrProps in *.
  destruct (dropPrefix "state." code) eqn:Hs.
  - match goal with H : Some _ = Some _ |- _ => injection H as <- end.
    apply Hdrop in Hs. simpl in Hs. lia.
  - match goal with H : dropPrefix "props." _ = _ |- _ =>
      apply Hdrop in H; simpl in H; lia end.
Qed.

(** A printer for the expression fragment. *)
Fixpoint generate (e : Expression) : string :=
  match e with
  | Identifier n => n
  | NumericLiteral r => r
  | StringLiteral v => "'" +:+ v +:+ "'"
  | ThisExpression => "this"
  | MemberExpression o p => generate o +:+ "." +:+ generate p
  | BinaryExpression op l r => generate l +:+ " " +:+ op +:+ " " +:+ generate r
  | AssignmentExpression op l r =>
    generate l +:+ " " +:+ op +:+ " " +:+ generate r
  | ConditionalExpression t c a =>
    generate t +:+ " ? " +:+ generate c +:+ " : " +:+ generate a
  | CallExpression f args =>
    generate f +:+ "(" +:+ join (map generate args) ", " +:+ ")"
  end.

(** A parser that knows the sources of the examples. *)
Definition parse (s : string) : Expression :=
  if decide (s = "count = count + 1") then
    AssignmentExpression "=" (Identifier "count")
      (BinaryExpression "+" (Identifier "count") (NumericLiteral "1"))
  else if decide (s = "1") then NumericLiteral "1"
  else if decide (s = "this.first") then
    MemberExpression ThisExpression (Identifier "first")
  else Identifier s.

(** Every identifier on the left of an assignment is taken for a state
    field. *)
Definition stateFieldName (e : Expression) : option string :=
  match e with
  | Identifier n => Some n
  | _ => None
  end.

Definition processBinding (str : string) (_ : ToReactOptions) : string := str.
Definition getTypedFunction (code : string) (_ : bool) (_ : option string)
  : string := code.
Definition replaceGetterWithFunction (str : string) : string := str.
Definition prefixWithFunction (str : string) : string := "function " +:+ str.

(** State [{ a: 1, b: state.a + 1 }], no hooks. *)
Definition dependentState : MitosisComponent :=
  {| state :=
       [("a", Some (StateValue.mk "1" property None));
        ("b", Some (StateValue.mk "state.a + 1" property None))];
     hooks := {| onInit := None |};
     nodes := [] |}.

(** State [{ a: props.start, b: state.a + 1 }] and an init hook. *)
Definition relocatedTwice : MitosisComponent :=
  {| state :=
       [("a", Some (StateValue.mk "props.start" property None));
        ("b", Some (StateValue.mk "state.a + 1" property None))];
     hooks := {| onInit := Some (BaseHook.mk "this.log();") |};
     nodes := [] |}.

(** A button whose click handler increments the counter. *)
Definition counterNode : MitosisNode :=
  Node "button" (Some {[ "onClick" := Binding.mk "count = count + 1" None ]})
    (Some []).

Definition counter : MitosisComponent :=
  {| state := [("count", Some (StateValue.mk "1" property None))];
     hooks := {| onInit := None |};
     nodes := [counterNode] |}.

(** A typed entry [n: number = 1]. *)
Definition typedEntry : string * option StateValue.t :=
  ("n", Some (StateValue.mk "1" property (Some "number"))).

(** State [{ a: 1, get double() { return state.a * 2 } }] and an init
    hook: nothing to relocate. *)
Definition nothingToRelocate : MitosisComponent :=
  {| state :=
       [("a", Some (StateValue.mk "1" property None));
        ("double", Some (StateValue.mk "get double() { return state.a * 2 }"
                           getter None))];
     hooks := {| onInit := Some (BaseHook.mk "this.log();") |};
     nodes := [] |}.

(** [<For each={state.items}>{(item) => <li key={item.id}/>}</For>] *)
Definition forWithKey : MitosisNode :=
  Node "For" (Some {[ "each" := Binding.mk "state.items" None ]})
    (Some [Node "li" (Some {[ "key" := Binding.mk "item.id" None ]}) (Some [])]).

(** A [For] without children. *)
Definition forWithoutChildren : MitosisNode :=
  Node "For" (Some {[ "each" := Binding.mk "state.items" None ]}) (Some []).

(** A [For] whose first child has the key binding [''] . *)
Definition forWithEmptyKey : MitosisNode :=
  Node "For" (Some {[ "each" := Binding.mk "state.items" None ]})
    (Some [Node "li" (Some {[ "key" := Binding.mk "" None ]}) (Some [])]).

End Examples.

(** * Facts about strings *)

Lemma string_app_cons a (s t : string) : String a s +:+ t = String a (s +:+ t).
Proof. reflexivity. Qed.

Lemma string_app_nil_l (s : string) : "" +:+ s = s.
Proof. reflexivity. Qed.

Lemma string_app_nil_r (s : string) : s +:+ "" = s.
Proof. induction s as [|a s IH]; [done|]. by rewrite string_app_cons, IH. Qed.

Lemma string_app_assoc (s t u : string) : (s +:+ t) +:+ u = s +:+ t +:+ u.
Proof.
  induction s as [|a s IH]; [done|]. by rewrite !string_app_cons, IH.
Qed.

(** * The Reference Normalization Pass ([transformState]) *)

Section transformState_facts.
Import Angular Normalization.
Variable strip : string → StripStateAndPropsRefsOptions → string.

#[local] Abbreviation visit := (visit strip).
#[local] Abbreviation transformState := (transformState strip).
#[local] Abbreviation initStatement := (initStatement strip).
#[local] Abbreviation initStatements := (initStatements strip).
#[local] Abbreviation hooksAfter := (hooksAfter strip).

Lemma relocated_Some v :
  relocated (Some v) = true ↔
  StateValue.type v = property ∧ StateValue.code v ≠ "" ∧
  (includes (StateValue.code v) "state." = true ∨
   includes (StateValue.code v) "props." = true).
Proof.
  unfold relocated.
  rewrite !andb_true_iff, orb_true_iff, bool_decide_eq_true.
  assert (truthy (StateValue.code v) = true ↔ StateValue.code v ≠ "") as ->;
    [|tauto].
  by destruct (StateValue.code v).
Qed.

Lemma visit_unfold json key value :
  visit json (key, value) =
  if relocated value then
    {| state := set_state_code key "null" (state json);
       hooks := {| onInit := Some {| BaseHook.code :=
         match value with
         | Some v => initStatement key v
         | None => ""
         end +:+ hookCode (onInit (hooks json)) |} |};
       nodes := nodes json |}
  else json.
Proof.
  destruct value as [v|]; [|done]. unfold Angular.visit, relocated.
  case_decide as Ht.
  - rewrite bool_decide_eq_true_2 by done. simpl.
    destruct (truthy (StateValue.code v) && _) eqn:Hc; [|done].
    do 3 f_equal. unfold Normalization.initStatement.
    rewrite !string_app_assoc. do 7 f_equal.
    destruct (onInit (hooks json)) as [[c]|]; [|done].
    by destruct c.
  - by rewrite bool_decide_eq_false_2 by done.
Qed.

Lemma initStatements_none l :
  existsb (λ e, relocated e.2) l = false → initStatements l = "".
Proof.
  induction l as [|[k [v|]] l IH]; simpl; [done| |done].
  intros [Hv Hl]%orb_false_iff. rewrite Hv. auto.
Qed.

Lemma hookCode_hooksAfter l h :
  hookCode (onInit (hooksAfter l h)) = initStatements l +:+ hookCode (onInit h).
Proof.
  unfold Normalization.hooksAfter. destruct (existsb _ l) eqn:He; [done|].
  by rewrite initStatements_none.
Qed.

Lemma initStatements_cons k v l :
  initStatements ((k, v) :: l) =
  (if relocated v then
     match v with Some v => initStatement k v | None => "" end
   else "") +:+ initStatements l.
Proof.
  destruct v as [v|]; [|done]. cbn [Normalization.initStatements].
  by destruct (relocated (Some v)).
Qed.

Lemma foldl_visit l json :
  foldl visit json (reverse l) =
  {| state := nullified l (state json);
     hooks := hooksAfter l (hooks json);
     nodes := nodes json |}.
Proof.
  induction l as [|[k v] l IH].
  - by destruct json.
  - rewrite reverse_cons, foldl_app. cbn [foldl]. rewrite IH, visit_unfold.
    cbn [state hooks nodes]. rewrite hookCode_hooksAfter.
    unfold Normalization.hooksAfter at 2.
    cbn [nullified foldr existsb fst snd]. rewrite initStatements_cons.
    destruct (relocated v) eqn:Hv; cbn [orb]; [by rewrite string_app_assoc|].
    done.
Qed.

Lemma initStatements_app l1 l2 :
  initStatements (l1 ++ l2) = initStatements l1 +:+ initStatements l2.
Proof.
  induction l1 as [|[k v] l1 IH]; [done|].
  rewrite <-app_comm_cons, !initStatements_cons, IH.
  by rewrite string_app_assoc.
Qed.

Lemma transformState_unfold json :
  transformState json =
  {| state := nullified (state json) (state json);
     hooks := hooksAfter (state json) (hooks json);
     nodes := nodes json |}.
Proof. apply foldl_visit. Qed.

Lemma transformState_hook_code json :
  hookCode (onInit (hooks (transformState json))) =
  initStatements (state json) +:+ hookCode (onInit (hooks json)).
Proof. rewrite transformState_unfold. apply hookCode_hooksAfter. Qed.

Lemma placeholder_idemp v : placeholder (placeholder v) = placeholder v.
Proof. by destruct v. Qed.

Lemma relocated_placeholder v : relocated (placeholder v) = false.
Proof.
  destruct v as [v|]; [|done]. unfold relocated. cbn.
  apply andb_false_r.
Qed.

Lemma passedOver_relocated v : passedOver v ↔ relocated v = false.
Proof.
  destruct v as [v|]; [|by split]. unfold passedOver.
  rewrite <-(not_true_iff_false (relocated (Some v))). split.
  - intros Hp [Ht [Hc Hor]]%relocated_Some.
    destruct Hp as [?|[?|[Hs Hp]]]; [done..|]. destruct Hor; congruence.
  - intros Hn.
    destruct (decide (StateValue.type v = property)) as [Ht|]; [|tauto].
    destruct (decide (StateValue.code v = "")) as [|Hc]; [tauto|].
    right; right. split; apply not_true_iff_false; intros Hi;
      apply Hn, relocated_Some; tauto.
Qed.

(** Each entry of the result is the entry of [st] at its place, with the
    placeholder when an entry of [l] under the same key was relocated. *)
Lemma nullified_fmap l st :
  nullified l st =
  (λ e, if existsb (λ e', bool_decide (e'.1 = e.1) && relocated e'.2) l
        then (e.1, placeholder e.2) else e) <$> st.
Proof.
  induction l as [|a l IH]; cbn [nullified foldr existsb].
  - by rewrite <-(list_fmap_id st) at 1.
  - fold (nullified l st). rewrite IH.
    destruct (relocated a.2) eqn:Ha.
    + unfold set_state_code. rewrite <-list_fmap_compose.
      apply list_fmap_ext; intros i e _; cbn.
      destruct (existsb _ l); cbn [fst snd];
        case_decide as Hk; subst;
        rewrite ?bool_decide_eq_true_2, ?bool_decide_eq_false_2 by done;
        cbn; rewrite ?orb_true_r; try done.
      by rewrite placeholder_idemp.
    + apply list_fmap_ext; intros i e _; cbn.
      by rewrite andb_false_r.
Qed.

Lemma NoDup_fst_unique (st : State) i j k v1 v2 :
  NoDup st.*1 → st !! i = Some (k, v1) → st !! j = Some (k, v2) →
  i = j ∧ v1 = v2.
Proof.
  intros Hnd Hi Hj.
  assert (i = j) as ->.
  { eapply NoDup_lookup; [done| |]; rewrite list_lookup_fmap.
    - by rewrite Hi. - by rewrite Hj. }
  split; [done|]. congruence.
Qed.

Lemma transformState_state json :
  NoDup (state json).*1 →
  state (transformState json) = normalizedEntry <$> state json.
Proof.
  intros Hnd. rewrite transformState_unfold. cbn [state].
  rewrite nullified_fmap. apply list_fmap_ext; intros i [k v] Hi.
  unfold normalizedEntry; cbn [fst snd].
  destruct (existsb _ _) eqn:He.
  - apply existsb_exists in He as [[k' v'] [Hin Hkv]].
    apply andb_true_iff in Hkv as [Hk Hv]. cbn in Hk, Hv.
    apply bool_decide_eq_true in Hk as ->.
    apply list_elem_of_In, list_elem_of_lookup in Hin as [j Hj].
    destruct (NoDup_fst_unique _ _ _ _ _ _ Hnd Hi Hj) as [_ ->].
    by rewrite Hv.
  - destruct (relocated v) eqn:Hv; [|done]. exfalso.
    apply not_true_iff_false in He. apply He, existsb_exists.
    exists (k, v). split; [eapply list_elem_of_In, list_elem_of_lookup_2, Hi|].
    cbn. by rewrite bool_decide_eq_true_2, Hv.
Qed.

Lemma transformState_nothing_relocated json :
  existsb (λ e, relocated e.2) (state json) = false → transformState json = json.
Proof.
  intros He. rewrite transformState_unfold, nullified_fmap.
  unfold Normalization.hooksAfter. rewrite He. destruct json as [st h n].
  cbn [state hooks nodes] in *. f_equal.
  etrans; [|apply list_fmap_id]. apply list_fmap_ext; intros i e Hi.
  cbn beta. destruct (existsb (λ e', _ && _) st) eqn:He'; [exfalso|done].
  apply existsb_exists in He' as [e' [Hin [_ Hr]%andb_true_iff]].
  apply not_true_iff_false in He. apply He, existsb_exists. eauto.
Qed.

Lemma nothing_relocated_after json :
  existsb (λ e, relocated e.2) (state (transformState json)) = false.
Proof.
  apply not_true_iff_false. intros [e' [Hin Hr]]%existsb_exists.
  rewrite transformState_unfold in Hin. cbn [state] in Hin.
  rewrite nullified_fmap in Hin.
  apply list_elem_of_In, list_elem_of_fmap in Hin as [e [-> He]].
  destruct (existsb (λ e', _ && _) (state json)) eqn:Hex.
  - cbn [snd] in Hr. by rewrite relocated_placeholder in Hr.
  - apply not_true_iff_false in Hex. apply Hex, existsb_exists.
    exists e. split; [by apply list_elem_of_In|].
    by rewrite bool_decide_eq_true_2, Hr.
Qed.

Lemma firstRelocated_initStatements l :
  match firstRelocated l with
  | Some (key, value) =>
    existsb (λ e, relocated e.2) l = true ∧
    ∃ rest, initStatements l = initStatement key value +:+ rest
  | None => existsb (λ e, relocated e.2) l = false
  end.
Proof.
  induction l as [|[k [v|]] l IH]; cbn [firstRelocated existsb snd]; [done| |done].
  rewrite initStatements_cons. destruct (relocated (Some v)); [|done].
  split; [done|]. eauto.
Qed.

(** C1: a [property] entry whose code is non-empty and includes [state.] or
    [props.] is relocated. When the pass reaches it (the entries after it
    have been visited), the visit writes ['null'] over its code and leaves an
    init hook whose code is [\nthis.<key> = <code>;\n] followed by the code
    the hook had ([''] when there was none), where [<code>] is what
    [stripStateAndPropsRefs] returns for the entry's code with
    [replaceWith: 'this']. The entries before it are visited next; in the
    result the entry holds ['null'] at its place, with its type and type
    parameter, and the hook code is the statements of the relocated entries
    before it, then its statement, then the code that was there at its
    visit. *)
Theorem transformState_relocates_entry json l1 key value l2 :
  state json = l1 ++ (key, Some value) :: l2 →
  NoDup (state json).*1 →
  StateValue.type value = property →
  StateValue.code value ≠ "" →
  includes (StateValue.code value) "state." = true ∨
  includes (StateValue.code value) "props." = true →
  let before := foldl visit json (reverse l2) in
  let existing := hookCode (onInit (hooks before)) in
  let statement :=
    LF +:+ "this." +:+ key +:+ " = "
       +:+ strip (StateValue.code value) {| replaceWith := "this" |}
       +:+ ";" +:+ LF in
  visit before (key, Some value) =
    {| state := set_state_code key "null" (state before);
       hooks := {| onInit :=
         Some {| BaseHook.code := statement +:+ existing |} |};
       nodes := nodes before |}
  ∧ transformState json =
    foldl visit (visit before (key, Some value)) (reverse l1)
  ∧ state (transformState json) !! length l1 =
    Some (key, Some (StateValue.with_code "null" value))
  ∧ hookCode (onInit (hooks (transformState json))) =
    initStatements l1 +:+ statement +:+ existing.
Proof.
  intros Hst Hnd Ht Hc Hinc before existing statement.
  assert (relocated (Some value) = true) as Hr by (apply relocated_Some; auto).
  split_and!.
  - by rewrite visit_unfold, Hr.
  - unfold Angular.transformState, before.
    by rewrite Hst, reverse_app, reverse_cons, !foldl_app.
  - rewrite transformState_state, Hst by done.
    rewrite list_lookup_fmap, list_lookup_middle by done.
    cbn [fmap option_fmap option_map]. unfold normalizedEntry.
    cbn [fst snd]. by rewrite Hr.
  - rewrite transformState_hook_code, Hst, initStatements_app.
    rewrite initStatements_cons, Hr, !string_app_assoc.
    unfold existing, before. rewrite foldl_visit. cbn [hooks].
    by rewrite hookCode_hooksAfter.
Qed.

(** C2, as amended: the code of the init hook after the pass is the statements
    of the relocated entries, in declaration order, followed by the code the
    hook had. For entries [a] then [b], with [b] a [property] whose code
    includes [state.] or [props.], the statement of [a] stands before the
    statement of [b] when [a] is relocated as well, and [a] has no statement
    in the hook when it is not. *)
Theorem transformState_declaration_order json l1 a va l2 b vb l3 :
  state json = l1 ++ (a, Some va) :: l2 ++ (b, Some vb) :: l3 →
  StateValue.type vb = property →
  includes (StateValue.code vb) "state." = true ∨
  includes (StateValue.code vb) "props." = true →
  hookCode (onInit (hooks (transformState json))) =
    initStatements (state json) +:+ hookCode (onInit (hooks json))
  ∧ hookCode (onInit (hooks (transformState json))) =
    initStatements l1
      +:+ (if relocated (Some va) then initStatement a va else "")
      +:+ initStatements l2
      +:+ initStatement b vb
      +:+ initStatements l3
      +:+ hookCode (onInit (hooks json)).
Proof.
  intros Hst Ht Hinc. split; [apply transformState_hook_code|].
  assert (relocated (Some vb) = true) as Hb.
  { apply relocated_Some. split_and!; [done| |done].
    intros Hc. rewrite Hc in Hinc. by destruct Hinc. }
  rewrite transformState_hook_code, Hst.
  rewrite initStatements_app, initStatements_cons, initStatements_app.
  rewrite initStatements_cons, Hb, !string_app_assoc.
  by destruct (relocated (Some va)).
Qed.

(** C3: running the pass on the result of the pass changes nothing. *)
Theorem transformState_idempotent json :
  transformState (transformState json) = transformState json.
Proof.
  apply transformState_nothing_relocated, nothing_relocated_after.
Qed.

(** C7: an entry that is [undefined], is not a [property], has empty code, or
    has code that includes neither [state.] nor [props.] is, in the result,
    the same entry at the same place; when every entry is such, the pass
    returns the IR as it was, hooks included. *)
Theorem transformState_passes_over json :
  (∀ i key value,
     NoDup (state json).*1 →
     state json !! i = Some (key, value) → passedOver value →
     state (transformState json) !! i = Some (key, value))
  ∧ ((∀ key value, (key, value) ∈ state json → passedOver value) →
     transformState json = json).
Proof.
  split.
  - intros i key value Hnd Hi Hp%passedOver_relocated.
    rewrite transformState_state, list_lookup_fmap, Hi by done.
    cbn [fmap option_fmap option_map]. unfold normalizedEntry.
    cbn [fst snd]. by rewrite Hp.
  - intros Hall. apply transformState_nothing_relocated.
    apply not_true_iff_false. intros [[k v] [Hin Hr]]%existsb_exists.
    apply list_elem_of_In, Hall, passedOver_relocated in Hin.
    cbn in Hr. congruence.
Qed.

(** C10: when some entry is relocated (a [property] whose code includes
    [state.] or [props.]), the init hook exists after the pass.
    Its code starts with the statement of the first relocated entry and ends
    with the code the hook had before the pass; when the hook was absent, the
    code is the relocated statements alone. *)
Theorem transformState_creates_init_hook json k0 v0 :
  (k0, Some v0) ∈ state json →
  StateValue.type v0 = property →
  includes (StateValue.code v0) "state." = true ∨
  includes (StateValue.code v0) "props." = true →
  ∃ key value rest h,
    firstRelocated (state json) = Some (key, value) ∧
    onInit (hooks (transformState json)) = Some h ∧
    match onInit (hooks json) with
    | Some h0 =>
      BaseHook.code h =
        (LF +:+ "this." +:+ key +:+ " = "
            +:+ strip (StateValue.code value) {| replaceWith := "this" |}
            +:+ ";" +:+ LF)
        +:+ rest +:+ BaseHook.code h0
    | None =>
      BaseHook.code h =
        (LF +:+ "this." +:+ key +:+ " = "
            +:+ strip (StateValue.code value) {| replaceWith := "this" |}
            +:+ ";" +:+ LF)
        +:+ rest
    end.
Proof.
  intros Hin Ht Hinc.
  assert (relocated (Some v0) = true) as Hr.
  { apply relocated_Some. split_and!; [done| |done].
    intros Hc. rewrite Hc in Hinc. by destruct Hinc. }
  assert (existsb (λ e, relocated e.2) (state json) = true) as Hex.
  { apply existsb_exists. exists (k0, Some v0).
    by rewrite <-list_elem_of_In. }
  pose proof (firstRelocated_initStatements (state json)) as Hf.
  destruct (firstRelocated (state json)) as [[key value]|]; [|congruence].
  destruct Hf as [_ [rest Hrest]].
  exists key, value, rest. eexists. split; [done|].
  rewrite transformState_unfold. cbn [hooks].
  unfold Normalization.hooksAfter. rewrite Hex. cbn [onInit].
  split; [done|]. cbn [BaseHook.code]. rewrite Hrest.
  fold (initStatement key value).
  destruct (onInit (hooks json)); cbn [hookCode].
  - by rewrite string_app_assoc.
  - by rewrite string_app_nil_r.
Qed.

End transformState_facts.

(** *** The pass on concrete components *)

Lemma transformState_relocates_entry_witness :
  state (Angular.transformState Examples.stripStateAndPropsRefs
           Examples.relocatedTwice) !! 0 =
    Some ("a", Some (StateValue.mk "null" property None))
  ∧ hookCode (onInit (hooks
      (Angular.transformState Examples.stripStateAndPropsRefs
         Examples.relocatedTwice))) =
    LF +:+ "this.a = this.start;" +:+ LF +:+
    LF +:+ "this.b = this.a + 1;" +:+ LF +:+ "this.log();".
Proof.
  pose proof (transformState_relocates_entry
    Examples.stripStateAndPropsRefs Examples.relocatedTwice
    [] "a" (StateValue.mk "props.start" property None)
    [("b", Some (StateValue.mk "state.a + 1" property None))]) as H.
  destruct H as (_ & _ & Hentry & Hhook).
  - reflexivity.
  - apply (bool_decide_unpack _). vm_compute. exact I.
  - reflexivity.
  - discriminate.
  - right. vm_compute. reflexivity.
  - split; [exact Hentry|]. vm_compute in Hhook. vm_compute. exact Hhook.
Defined.

(** C2, as stated, fails on [{ a: 1, b: state.a + 1 }]: [a] has no reference
    and [b] is a [property] whose code refers to [a], yet the init hook after
    the pass holds the assignment to [this.b] alone; no assignment to
    [this.a] stands before it. *)
Lemma transformState_order_counterexample :
  state Examples.dependentState =
    [("a", Some (StateValue.mk "1" property None));
     ("b", Some (StateValue.mk "state.a + 1" property None))]
  ∧ includes "1" "state." = false ∧ includes "1" "props." = false
  ∧ includes "state.a + 1" "state.a" = true
  ∧ hookCode (onInit (hooks
      (Angular.transformState Examples.stripStateAndPropsRefs
         Examples.dependentState))) =
    LF +:+ "this.b = this.a + 1;" +:+ LF
  ∧ Normalization.assignsBefore
      (hookCode (onInit (hooks
         (Angular.transformState Examples.stripStateAndPropsRefs
            Examples.dependentState)))) "a" "b" = false.
Proof. vm_compute. repeat split. Qed.

Lemma transformState_declaration_order_witness :
  hookCode (onInit (hooks
    (Angular.transformState Examples.stripStateAndPropsRefs
       Examples.relocatedTwice))) =
  LF +:+ "this.a = this.start;" +:+ LF +:+
  LF +:+ "this.b = this.a + 1;" +:+ LF +:+ "this.log();"
  ∧ Normalization.assignsBefore
      (hookCode (onInit (hooks
         (Angular.transformState Examples.stripStateAndPropsRefs
            Examples.relocatedTwice)))) "a" "b" = true.
Proof.
  pose proof (transformState_declaration_order
    Examples.stripStateAndPropsRefs Examples.relocatedTwice
    [] "a" (StateValue.mk "props.start" property None)
    [] "b" (StateValue.mk "state.a + 1" property None) []) as H.
  destruct H as [_ Hhook].
  - reflexivity.
  - reflexivity.
  - left. vm_compute. reflexivity.
  - rewrite Hhook. vm_compute. split; reflexivity.
Defined.

Lemma transformState_passes_over_witness :
  state (Angular.transformState Examples.stripStateAndPropsRefs
           Examples.dependentState) !! 0 =
    Some ("a", Some (StateValue.mk "1" property None))
  ∧ Angular.transformState Examples.stripStateAndPropsRefs
      Examples.nothingToRelocate = Examples.nothingToRelocate.
Proof.
  split.
  - apply (proj1 (transformState_passes_over
      Examples.stripStateAndPropsRefs Examples.dependentState)).
    + apply (bool_decide_unpack _). vm_compute. exact I.
    + reflexivity.
    + right; right. vm_compute. split; reflexivity.
  - apply (proj2 (transformState_passes_over
      Examples.stripStateAndPropsRefs Examples.nothingToRelocate)).
    intros key value Hin. cbn [state Examples.nothingToRelocate] in Hin.
    apply elem_of_cons in Hin as [[= -> ->]|Hin].
    { right; right. vm_compute. split; reflexivity. }
    apply elem_of_cons in Hin as [[= -> ->]|Hin].
    { left. discriminate. }
    by apply elem_of_nil in Hin.
Defined.

Lemma transformState_creates_init_hook_witness :
  ∃ key value rest h,
    Normalization.firstRelocated (state Examples.dependentState) =
      Some (key, value) ∧
    onInit (hooks (Angular.transformState Examples.stripStateAndPropsRefs
                     Examples.dependentState)) = Some h ∧
    BaseHook.code h =
      (LF +:+ "this." +:+ key +:+ " = "
          +:+ Examples.stripStateAndPropsRefs (StateValue.code value)
                {| Angular.replaceWith := "this" |}
          +:+ ";" +:+ LF)
      +:+ rest.
Proof.
  apply (transformState_creates_init_hook Examples.stripStateAndPropsRefs
           Examples.dependentState "b"
           (StateValue.mk "state.a + 1" property None)).
  - apply list_elem_of_In. right. left. reflexivity.
  - reflexivity.
  - left. vm_compute. reflexivity.
Defined.

(** * Structural signal extraction ([hasFirstChildKeyAttribute]) *)

(** C6: the answer is [true] exactly when the node has a first child whose
    bindings hold a [key] binding with non-empty code; it is [false] for a
    node with no children, and [false] when the first child has no bindings,
    no [key] binding, or a [key] binding whose code is ['']. *)
Theorem hasFirstChildKeyAttribute_spec node :
  (Angular.hasFirstChildKeyAttribute node = true ↔
   ∃ firstChild rest (firstChildBinding : gmap string Binding.t) key,
     children node = Some (firstChild :: rest) ∧
     bindings firstChild = Some firstChildBinding ∧
     firstChildBinding !! "key" = Some key ∧
     Binding.code key ≠ "")
  ∧ (children node = None ∨ children node = Some [] →
     Angular.hasFirstChildKeyAttribute node = false)
  ∧ (∀ firstChild rest,
       children node = Some (firstChild :: rest) →
       bindings firstChild = None ∨
       (∃ firstChildBinding : gmap string Binding.t,
          bindings firstChild = Some firstChildBinding ∧
          (firstChildBinding !! "key" = None ∨
           ∃ key, firstChildBinding !! "key" = Some key ∧
                  Binding.code key = "")) →
       Angular.hasFirstChildKeyAttribute node = false).
Proof.
  unfold Angular.hasFirstChildKeyAttribute. split_and!.
  - split.
    + destruct (children node) as [[|firstChild rest]|]; [done| |done].
      destruct (bindings firstChild) as [bs|] eqn:Hb; [|done].
      destruct (bs !! "key") as [key|] eqn:Hk; [|done].
      intros Hc. exists firstChild, rest, bs, key. split_and!; try done.
      by destruct (Binding.code key).
    + intros (firstChild & rest & bs & key & -> & -> & -> & Hc).
      by destruct (Binding.code key).
  - by intros [-> | ->].
  - intros firstChild rest -> [-> | (bs & -> & [-> | (key & -> & ->)])]; done.
Qed.

Lemma hasFirstChildKeyAttribute_witness :
  Angular.hasFirstChildKeyAttribute Examples.forWithKey = true
  ∧ Angular.hasFirstChildKeyAttribute Examples.forWithoutChildren = false
  ∧ Angular.hasFirstChildKeyAttribute Examples.forWithEmptyKey = false.
Proof.
  split_and!.
  - apply (proj1 (hasFirstChildKeyAttribute_spec Examples.forWithKey)).
    eexists _, _, _, _. split_and!; [reflexivity..|discriminate].
  - apply (proj1 (proj2
      (hasFirstChildKeyAttribute_spec Examples.forWithoutChildren))).
    right. reflexivity.
  - eapply (proj2 (proj2
      (hasFirstChildKeyAttribute_spec Examples.forWithEmptyKey))).
    + reflexivity.
    + right. eexists. split; [reflexivity|]. right. eexists.
      split; reflexivity.
Defined.

(** * Receiver stripping ([stripThisRefs]) *)

Section stripThisRefs_facts.
Import React Stripping.

Lemma replaceThisRefs_unfold s :
  replaceThisRefs s =
  match matchThisRef s with
  | Some (id, rest) => id +:+ replaceThisRefs rest
  | None =>
    match s with
    | "" => ""
    | String c s' => String c (replaceThisRefs s')
    end
  end.
Proof.
  funelim (replaceThisRefs s);
    try match goal with Hm : matchThisRef _ = _ |- _ => rewrite Hm end; done.
Qed.

Lemma spanIdent_identifier ident rest :
  allIdentChars ident = true → startsWithIdentChar rest = false →
  spanIdent (ident +:+ rest) = (ident, rest).
Proof.
  intros Hid Hrest. induction ident as [|c ident IH].
  - rewrite string_app_nil_l. destruct rest as [|c rest]; [done|].
    cbn [startsWithIdentChar] in Hrest. cbn [spanIdent]. by rewrite Hrest.
  - cbn [allIdentChars] in Hid. apply andb_true_iff in Hid as [Hc Hid].
    rewrite string_app_cons. cbn [spanIdent]. by rewrite Hc, IH.
Qed.

Lemma matchThisRef_reference ident rest :
  isIdentifier ident = true → startsWithIdentChar rest = false →
  matchThisRef ("this." +:+ ident +:+ rest) = Some (ident, rest).
Proof.
  intros [Hne Hid]%andb_true_iff Hrest. unfold matchThisRef.
  change (dropPrefix "this." ("this." +:+ ident +:+ rest))
    with (Some (ident +:+ rest)).
  cbn beta iota. rewrite spanIdent_identifier by done. by rewrite Hne.
Qed.

(** No match starts inside a text without [this.] that is followed by the
    end of the code or by a [t]. *)
Lemma matchThisRef_text c text rest :
  includes (String c text) "this." = false →
  rest = "" ∨ (∃ rest', rest = String "t" rest') →
  matchThisRef (String c text +:+ rest) = None.
Proof.
  intros Hinc Hrest. unfold matchThisRef.
  assert (dropPrefix "this." (String c text +:+ rest) = None) as ->; [|done].
  cbn [includes] in Hinc. apply orb_false_iff in Hinc as [Hs _].
  unfold startsWith in Hs. revert Hs.
  destruct text as [|c2 [|c3 [|c4 [|c5 text]]]];
    destruct Hrest as [->|[rest' ->]];
    rewrite ?string_app_cons, ?string_app_nil_l; cbn;
    repeat (case_decide; subst; cbn; try done).
Qed.

Lemma replaceThisRefs_text text rest :
  includes text "this." = false →
  rest = "" ∨ (∃ rest', rest = String "t" rest') →
  replaceThisRefs (text +:+ rest) = text +:+ replaceThisRefs rest.
Proof.
  intros Hinc Hrest. induction text as [|c text IH]; [done|].
  rewrite replaceThisRefs_unfold, matchThisRef_text by done.
  rewrite !string_app_cons, IH; [done|].
  cbn [includes] in Hinc. by apply orb_false_iff in Hinc as [_ ?].
Qed.

Lemma withReceiver_shape refs :
  withReceiver refs = "" ∨ ∃ rest', withReceiver refs = String "t" rest'.
Proof. destruct refs as [|[ident text] refs]; [by left|right]. by eexists. Qed.

Lemma replaceThisRefs_withReceiver refs :
  wellFormed refs = true → replaceThisRefs (withReceiver refs) = bare refs.
Proof.
  induction refs as [|[ident text] refs IH]; [done|].
  cbn [wellFormed withReceiver bare].
  intros [[[[Hid Hinc]%andb_true_iff Hst]%andb_true_iff Hend]%andb_true_iff
          Hwf]%andb_true_iff.
  apply negb_true_iff in Hinc, Hst.
  rewrite replaceThisRefs_unfold, matchThisRef_reference; [| done |].
  - rewrite replaceThisRefs_text by auto using withReceiver_shape.
    by rewrite IH.
  - destruct text as [|c text]; [|done].
    destruct refs; [done|]. by cbn in Hend.
Qed.

(** C9: under [useState], a piece of code made of a text without [this.]
    followed by receiver-prefixed references [this.<identifier>], each with
    the text that follows it, comes out with every reference written as the
    bare identifier and the texts as they were. Under any other state type
    [stripThisRefs] returns its argument. *)
Theorem stripThisRefs_spec options :
  (stateType options = useState →
   ∀ text refs,
     includes text "this." = false → wellFormed refs = true →
     stripThisRefs (text +:+ withReceiver refs) options = text +:+ bare refs)
  ∧ (stateType options ≠ useState →
     ∀ str, stripThisRefs str options = str).
Proof.
  unfold stripThisRefs. split; intros Hst.
  - intros text refs Hinc Hwf. rewrite decide_False by (by rewrite Hst; auto).
    rewrite replaceThisRefs_text by auto using withReceiver_shape.
    by rewrite replaceThisRefs_withReceiver.
  - intros str. by rewrite decide_True.
Qed.

End stripThisRefs_facts.

Lemma stripThisRefs_witness :
  React.stripThisRefs "return this.name.toUpperCase() + this.$n"
    {| React.stateType := React.useState; React.typescript := false |} =
    "return name.toUpperCase() + $n"
  ∧ React.stripThisRefs "return this.name.toUpperCase() + this.$n"
      {| React.stateType := React.mobx; React.typescript := false |} =
    "return this.name.toUpperCase() + this.$n".
Proof.
  split.
  - apply (proj1 (stripThisRefs_spec
      {| React.stateType := React.useState; React.typescript := false |})
      eq_refl "return " [("name", ".toUpperCase() + "); ("$n", "")]).
    + vm_compute. reflexivity.
    + vm_compute. reflexivity.
  - apply (proj2 (stripThisRefs_spec
      {| React.stateType := React.mobx; React.typescript := false |})).
    discriminate.
Defined.

(** * The setter rewrite and the materialization of state values *)

Section React_facts.
Import React.
Variable parse : string → Expression.
Variable generate : Expression → string.
Variable stateFieldName : Expression → option string.
Variable processBinding : string → ToReactOptions → string.
Variable getTypedFunction : string → bool → option string → string.
Variable replaceGetterWithFunction : string → string.
Variable prefixWithFunction : string → string.

#[local] Abbreviation updateStateSettersInCode :=
  (updateStateSettersInCode parse generate stateFieldName).
#[local] Abbreviation updateStateSetters :=
  (updateStateSetters parse generate stateFieldName).
#[local] Abbreviation processHookCode :=
  (processHookCode parse generate stateFieldName processBinding).
#[local] Abbreviation valueMapper :=
  (valueMapper parse generate stateFieldName processBinding).
#[local] Abbreviation processStateValue :=
  (processStateValue parse generate stateFieldName processBinding
     getTypedFunction replaceGetterWithFunction prefixWithFunction).

(** C4: under [useState], a piece of code that is an assignment whose
    left-hand side is a state field comes out as the call of the field's
    setter on the right-hand side, the right-hand side being the node of the
    source, untouched, and the only argument; the setter's name is [set]
    followed by the capitalized field name. *)
Theorem updateStateSettersInCode_assignment options value op lhs rhs field :
  stateType options = useState →
  parse value = AssignmentExpression op lhs rhs →
  stateFieldName lhs = Some field →
  updateStateSettersInCode value options =
    generate
      (CallExpression (Identifier ("set" +:+ capitalize field)) [rhs])
  ∧ getSetStateFnName field = "set" +:+ capitalize field.
Proof.
  intros Hst Hparse Hfield. split; [|done].
  unfold React.updateStateSettersInCode.
  rewrite decide_False by (by rewrite Hst; auto).
  unfold transformStateSetters. rewrite Hparse.
  cbn [rewriteAssignments]. by rewrite Hfield.
Qed.

(** C5: under a state type other than [useState], the setter rewrite returns
    every piece of code as it is, so a hook body only goes through
    [processBinding], and [updateStateSetters] leaves the IR as it is. *)
Theorem updateStateSetters_pass_through options :
  stateType options ≠ useState →
  (∀ value, updateStateSettersInCode value options = value)
  ∧ (∀ str, processHookCode str options = processBinding str options)
  ∧ (∀ json, updateStateSetters json options = json).
Proof.
  intros Hst.
  assert (∀ value, updateStateSettersInCode value options = value) as Hcode.
  { intros value. unfold React.updateStateSettersInCode.
    by rewrite decide_True. }
  split_and!; [done| |].
  - intros str. unfold React.processHookCode. by rewrite Hcode.
  - intros json. unfold React.updateStateSetters. by rewrite decide_True.
Qed.

(** C8, as amended: a [property] entry comes out as
    [const [<key>, set<Key>] = useState<T>(() => (<initializer>))]: the
    initializer is the entry's code after [valueMapper], inside a function of
    no argument; the type argument [<T>] is there when the output is
    TypeScript and the entry has a non-empty type parameter [T], and absent
    otherwise. *)
Theorem processStateValue_property options key stateVal :
  StateValue.type stateVal = property →
  processStateValue options (key, Some stateVal) =
    "const [" +:+ key +:+ ", " +:+ ("set" +:+ capitalize key)
      +:+ "] = useState"
      +:+ match StateValue.typeParameter stateVal with
          | Some T =>
            if typescript options && truthy T then "<" +:+ T +:+ ">" else ""
          | None => ""
          end
      +:+ "(() => ("
      +:+ valueMapper options (StateValue.code stateVal)
      +:+ "))".
Proof.
  intros Ht. unfold React.processStateValue. rewrite Ht.
  by destruct (StateValue.code stateVal).
Qed.

End React_facts.

Lemma updateStateSettersInCode_assignment_witness :
  React.updateStateSettersInCode Examples.parse Examples.generate
    Examples.stateFieldName "count = count + 1"
    {| React.stateType := React.useState; React.typescript := false |} =
    "setCount(count + 1)"
  ∧ React.getSetStateFnName "count" = "setCount".
Proof.
  apply (updateStateSettersInCode_assignment Examples.parse Examples.generate
           Examples.stateFieldName
           {| React.stateType := React.useState; React.typescript := false |}
           "count = count + 1" "=" (Identifier "count")
           (BinaryExpression "+" (Identifier "count") (NumericLiteral "1"))
           "count"); reflexivity.
Defined.

Lemma updateStateSetters_pass_through_witness :
  React.updateStateSettersInCode Examples.parse Examples.generate
    Examples.stateFieldName "count = count + 1"
    {| React.stateType := React.mobx; React.typescript := false |} =
    "count = count + 1"
  ∧ React.updateStateSetters Examples.parse Examples.generate
      Examples.stateFieldName Examples.counter
      {| React.stateType := React.mobx; React.typescript := false |} =
    Examples.counter.
Proof.
  pose proof (updateStateSetters_pass_through Examples.parse Examples.generate
    Examples.stateFieldName Examples.processBinding
    {| React.stateType := React.mobx; React.typescript := false |}) as H.
  destruct H as (Hcode & _ & Hjson); [discriminate|].
  split; [apply Hcode|apply Hjson].
Defined.

(** C8, as stated, fails on a typed entry in TypeScript output: the
    declaration carries the type argument [<number>], which the stated form
    [const [key, setKey] = useState(() => (initializer))] has no room for. *)
Lemma processStateValue_counterexample :
  React.processStateValue Examples.parse Examples.generate
    Examples.stateFieldName Examples.processBinding Examples.getTypedFunction
    Examples.replaceGetterWithFunction Examples.prefixWithFunction
    {| React.stateType := React.useState; React.typescript := true |}
    Examples.typedEntry =
    "const [n, setN] = useState<number>(() => (1))"
  ∧ "const [" +:+ "n" +:+ ", " +:+ React.getSetStateFnName "n"
      +:+ "] = useState(() => ("
      +:+ React.valueMapper Examples.parse Examples.generate
            Examples.stateFieldName Examples.processBinding
            {| React.stateType := React.useState; React.typescript := true |}
            "1"
      +:+ "))" =
    "const [n, setN] = useState(() => (1))"
  ∧ "const [n, setN] = useState<number>(() => (1))" ≠
    "const [n, setN] = useState(() => (1))".
Proof. vm_compute. split_and!; [reflexivity..|discriminate]. Qed.

Lemma processStateValue_property_witness :
  React.processStateValue Examples.parse Examples.generate
    Examples.stateFieldName Examples.processBinding Examples.getTypedFunction
    Examples.replaceGetterWithFunction Examples.prefixWithFunction
    {| React.stateType := React.useState; React.typescript := false |}
    ("name", Some (StateValue.mk "this.first" property None)) =
    "const [name, setName] = useState(() => (first))".
Proof.
  rewrite (processStateValue_property Examples.parse Examples.generate
    Examples.stateFieldName Examples.processBinding Examples.getTypedFunction
    Examples.replaceGetterWithFunction Examples.prefixWithFunction
    {| React.stateType := React.useState; React.typescript := false |}
    "name" (StateValue.mk "this.first" property None) eq_refl).
  vm_compute. reflexivity.
Defined.

(** * Further properties of the embedded functions *)

(** ** [transformState]: what the pass keeps *)

Section transformState_invariants.
Import Angular Normalization.
Variable strip : string → StripStateAndPropsRefsOptions → string.

(** X1: the pass leaves the nodes alone and keeps the keys of the state in
    their order; each entry comes out either as it was or with ['null'] for
    its code, its type and type parameter being kept in both cases. *)
Theorem transformState_keeps_shape json :
  nodes (transformState strip json) = nodes json
  ∧ (state (transformState strip json)).*1 = (state json).*1
  ∧ ∀ i key value,
      state json !! i = Some (key, value) →
      ∃ value',
        state (transformState strip json) !! i = Some (key, value') ∧
        (value' = value ∨ value' = StateValue.with_code "null" <$> value) ∧
        StateValue.type <$> value' = StateValue.type <$> value ∧
        StateValue.typeParameter <$> value' =
          StateValue.typeParameter <$> value.
Proof.
  rewrite transformState_unfold. cbn [state nodes]. rewrite nullified_fmap.
  split_and!; [done| |].
  - rewrite <-list_fmap_compose. apply list_fmap_ext; intros i e _. cbn.
    by destruct (existsb _ _).
  - intros i key value Hi. rewrite list_lookup_fmap, Hi.
    cbn [fmap option_fmap option_map fst snd].
    destruct (existsb _ _).
    + eexists. split; [done|]. split; [by right|]. by destruct value.
    + eexists. split; [done|]. split; [by left|]. done.
Qed.

(** X2: after the pass no [property] entry has code that includes [state.]
    or [props.]. *)
Theorem transformState_leaves_no_reference json key v :
  (key, Some v) ∈ state (transformState strip json) →
  StateValue.type v = property →
  includes (StateValue.code v) "state." = false ∧
  includes (StateValue.code v) "props." = false.
Proof.
  intros Hin Ht.
  assert (relocated (Some v) = false) as Hr.
  { pose proof (nothing_relocated_after strip json) as Hex.
    apply not_true_iff_false. intros Hr.
    apply not_true_iff_false in Hex. apply Hex, existsb_exists.
    exists (key, Some v). by rewrite <-list_elem_of_In. }
  apply passedOver_relocated in Hr as [?|[Hc|?]]; [done| |done].
  by rewrite Hc.
Qed.

End transformState_invariants.

Lemma transformState_keeps_shape_witness :
  (state (Angular.transformState Examples.stripStateAndPropsRefs
            Examples.relocatedTwice)).*1 = ["a"; "b"]
  ∧ ∃ value',
      state (Angular.transformState Examples.stripStateAndPropsRefs
               Examples.relocatedTwice) !! 1 = Some ("b", value') ∧
      StateValue.type <$> value' = Some property.
Proof.
  pose proof (transformState_keeps_shape Examples.stripStateAndPropsRefs
                Examples.relocatedTwice) as (_ & Hkeys & Hat).
  split; [exact Hkeys|].
  destruct (Hat 1 "b" (Some (StateValue.mk "state.a + 1" property None))
              eq_refl) as (value' & Hi & _ & Ht & _).
  exists value'. split; [exact Hi|exact Ht].
Defined.

Lemma transformState_leaves_no_reference_witness :
  includes "null" "state." = false ∧ includes "null" "props." = false.
Proof.
  apply (transformState_leaves_no_reference Examples.stripStateAndPropsRefs
           Examples.relocatedTwice "b"
           (StateValue.mk "null" property None)).
  - apply list_elem_of_In. vm_compute. right. left. reflexivity.
  - reflexivity.
Defined.

(** ** [stripThisRefs]: what a match is, and what the replace costs *)

Lemma string_length_app (s t : string) :
  String.length (s +:+ t) = String.length s + String.length t.
Proof.
  induction s as [|a s IH]; [done|]. rewrite string_app_cons. simpl. by rewrite IH.
Qed.

Lemma dropPrefix_sound p s rest : dropPrefix p s = Some rest → s = p +:+ rest.
Proof.
  revert s. induction p as [|a p IH]; intros s; cbn [dropPrefix].
  - by intros [= ->].
  - destruct s as [|b s]; [done|]. case_decide as Hab; [|done]. subst b.
    intros Hd%IH. by rewrite string_app_cons, <-Hd.
Qed.

Lemma dropPrefix_app p s : dropPrefix p (p +:+ s) = Some s.
Proof.
  induction p as [|a p IH]; [done|]. rewrite string_app_cons.
  cbn [dropPrefix]. by rewrite decide_True.
Qed.

Lemma spanIdent_sound s : s = (React.spanIdent s).1 +:+ (React.spanIdent s).2.
Proof.
  induction s as [|c s IH]; [done|]. cbn [React.spanIdent].
  destruct (React.isIdentChar c); [|done].
  destruct (React.spanIdent s) as [id rest]. cbn [fst snd] in *.
  by rewrite string_app_cons, <-IH.
Qed.

Lemma matchThisRef_sound s id rest :
  React.matchThisRef s = Some (id, rest) →
  s = "this." +:+ id +:+ rest ∧ id ≠ "".
Proof.
  unfold React.matchThisRef.
  destruct (dropPrefix "this." s) as [s'|] eqn:Hd; [|done].
  apply dropPrefix_sound in Hd. pose proof (spanIdent_sound s') as Hs.
  destruct (React.spanIdent s') as [i r]. cbn [fst snd] in Hs.
  destruct i as [|c i]; [done|]. cbn [truthy]. intros [= <- <-].
  by rewrite Hd, Hs.
Qed.

Lemma replaceThisRefs_length s :
  String.length (React.replaceThisRefs s) ≤ String.length s
  ∧ (String.length (React.replaceThisRefs s) = String.length s →
     React.replaceThisRefs s = s).
Proof.
  remember (String.length s) as n eqn:Hn. revert s Hn.
  induction n as [n IH] using lt_wf_ind. intros s ->.
  rewrite replaceThisRefs_unfold.
  destruct (React.matchThisRef s) as [[id rest]|] eqn:Hm.
  - apply matchThisRef_sound in Hm as [-> Hid].
    destruct (IH (String.length rest)) with (s := rest) as [Hle _]; [|done|].
    { rewrite !string_length_app. simpl. lia. }
    rewrite !string_length_app in *. simpl. split; lia.
  - destruct s as [|c s]; [done|].
    destruct (IH (String.length s)) with (s := s) as [Hle Heq];
      [simpl; lia|done|].
    simpl. split; [lia|]. intros [= Hlen]. by rewrite Heq.
Qed.

Section React_more_facts.
Import React.
Variable parse : string → Expression.
Variable generate : Expression → string.
Variable stateFieldName : Expression → option string.
Variable processBinding : string → ToReactOptions → string.
Variable getTypedFunction : string → bool → option string → string.
Variable replaceGetterWithFunction : string → string.
Variable prefixWithFunction : string → string.

(** X3: [stripThisRefs] never returns a longer string; when the result is as
    long as the argument it is the argument. Code without [this.] is
    returned as it is, whatever the state type. *)
Theorem stripThisRefs_shortens str options :
  String.length (stripThisRefs str options) ≤ String.length str
  ∧ (String.length (stripThisRefs str options) = String.length str →
     stripThisRefs str options = str)
  ∧ (includes str "this." = false → stripThisRefs str options = str).
Proof.
  unfold stripThisRefs. case_decide; [by split_and!|].
  destruct (replaceThisRefs_length str) as [Hle Heq]. split_and!; [done..|].
  intros Hinc. rewrite <-(string_app_nil_r str) at 1.
  rewrite replaceThisRefs_text by auto. by rewrite string_app_nil_r.
Qed.

Lemma join_app (l1 l2 : list string) sep :
  l1 ≠ [] → l2 ≠ [] →
  join (l1 ++ l2) sep = join l1 sep +:+ sep +:+ join l2 sep.
Proof.
  intros H1 H2. unfold join. induction l1 as [|x l1 IH]; [done|].
  destruct l1 as [|y l1].
  - destruct l2 as [|z l2]; [done|]. done.
  - cbn [app String.concat] in *. rewrite IH by done.
    by rewrite !string_app_assoc.
Qed.

(** X4: [getUseStateCode] of a state without entries is the empty text; an
    [undefined] entry gives an empty item; and the text for a state made of
    two non-empty runs of entries is the texts of the runs with the delimiter
    of three line feeds between them, so an empty item keeps its
    delimiter. *)
Theorem getUseStateCode_app options json json1 json2 :
  let getUseStateCode :=
    getUseStateCode parse generate stateFieldName processBinding
      getTypedFunction replaceGetterWithFunction prefixWithFunction in
  (state json = [] → getUseStateCode json options = "")
  ∧ (∀ key, state json = [(key, None)] → getUseStateCode json options = "")
  ∧ (state json = state json1 ++ state json2 →
     state json1 ≠ [] → state json2 ≠ [] →
     getUseStateCode json options =
       getUseStateCode json1 options +:+ (LF +:+ LF +:+ LF)
         +:+ getUseStateCode json2 options).
Proof.
  intros getUseStateCode. unfold getUseStateCode, React.getUseStateCode.
  split_and!.
  - by intros ->.
  - by intros key ->.
  - intros -> H1 H2. rewrite map_app. apply join_app.
    + by destruct (state json1).
    + by destruct (state json2).
Qed.

End React_more_facts.

Lemma stripThisRefs_shortens_witness :
  String.length
    (React.stripThisRefs "this.a + this.b"
       {| React.stateType := React.useState; React.typescript := false |}) ≤
    15
  ∧ React.stripThisRefs "a + b"
      {| React.stateType := React.useState; React.typescript := false |} =
    "a + b".
Proof.
  pose proof (stripThisRefs_shortens "this.a + this.b"
    {| React.stateType := React.useState; React.typescript := false |})
    as (Hle & _ & _).
  pose proof (stripThisRefs_shortens "a + b"
    {| React.stateType := React.useState; React.typescript := false |})
    as (_ & _ & Hid).
  split; [exact Hle|]. apply Hid. vm_compute. reflexivity.
Defined.

Lemma getUseStateCode_app_witness :
  React.getUseStateCode Examples.parse Examples.generate
    Examples.stateFieldName Examples.processBinding Examples.getTypedFunction
    Examples.replaceGetterWithFunction Examples.prefixWithFunction
    {| state := [("gone", None);
                 ("n", Some (StateValue.mk "1" property None))];
       hooks := {| onInit := None |}; nodes := [] |}
    {| React.stateType := React.useState; React.typescript := false |} =
  LF +:+ LF +:+ LF +:+ "const [n, setN] = useState(() => (1))".
Proof.
  pose proof (getUseStateCode_app Examples.parse Examples.generate
    Examples.stateFieldName Examples.processBinding Examples.getTypedFunction
    Examples.replaceGetterWithFunction Examples.prefixWithFunction
    {| React.stateType := React.useState; React.typescript := false |}
    {| state := [("gone", None);
                 ("n", Some (StateValue.mk "1" property None))];
       hooks := {| onInit := None |}; nodes := [] |}
    {| state := [("gone", None)];
       hooks := {| onInit := None |}; nodes := [] |}
    {| state := [("n", Some (StateValue.mk "1" property None))];
       hooks := {| onInit := None |}; nodes := [] |}) as (_ & _ & Happ).
  cbv zeta in Happ. rewrite Happ; [|reflexivity|discriminate|discriminate].
  vm_compute. reflexivity.
Defined.

(** ** The helper templates of the Angular generator *)

Lemma startsWith_app s pat t :
  startsWith s pat = true → startsWith (s +:+ t) pat = true.
Proof.
  unfold startsWith. destruct (dropPrefix pat s) as [r|] eqn:Hd; [|done].
  intros _. apply dropPrefix_sound in Hd as ->.
  by rewrite string_app_assoc, dropPrefix_app.
Qed.

Lemma includes_app_r s pat t :
  includes s pat = true → includes (s +:+ t) pat = true.
Proof.
  induction s as [|c s IH]; cbn [includes].
  - rewrite orb_false_r. intros Hs.
    apply (startsWith_app "" pat t) in Hs. rewrite string_app_nil_l in *.
    destruct t; cbn [includes]; by rewrite Hs.
  - intros [Hs|Hi]%orb_true_iff; rewrite string_app_cons; cbn [includes].
    + apply (startsWith_app _ _ t) in Hs. rewrite string_app_cons in Hs.
      by rewrite Hs.
    + by rewrite IH, orb_true_r.
Qed.

Lemma includes_app_l s pat t :
  includes s pat = true → includes (t +:+ s) pat = true.
Proof.
  intros Hs. induction t as [|c t IH]; [done|].
  rewrite string_app_cons. cbn [includes]. by rewrite IH, orb_true_r.
Qed.

Lemma filter_sublist {A} (f : A → bool) (l : list A) :
  sublist (List.filter f l) l.
Proof.
  induction l as [|x l IH]; cbn [List.filter]; [constructor|].
  destruct (f x); by constructor.
Qed.

(** X5: the keys of the helper table are the same five names with and
    without TypeScript. [getAppropriateTemplateFunctionKeys] returns those of
    them that the code includes, in the order of the table, each once; text
    put before or after the code removes none of them. *)
Theorem getAppropriateTemplateFunctionKeys_spec code :
  let helperNames :=
    ["useObjectWrapper"; "useObjectDotValues"; "useTypeOf";
     "useJsonStringify"; "setAttributes"] in
  (∀ isTs, (Angular.HELPER_FUNCTIONS isTs).*1 = helperNames)
  ∧ (∀ key, key ∈ Angular.getAppropriateTemplateFunctionKeys code ↔
            key ∈ helperNames ∧ includes code key = true)
  ∧ sublist (Angular.getAppropriateTemplateFunctionKeys code) helperNames
  ∧ NoDup (Angular.getAppropriateTemplateFunctionKeys code)
  ∧ (∀ before after,
       Angular.getAppropriateTemplateFunctionKeys code ⊆
       Angular.getAppropriateTemplateFunctionKeys
         (before +:+ code +:+ after)).
Proof.
  intros helperNames.
  assert (∀ c key, key ∈ Angular.getAppropriateTemplateFunctionKeys c ↔
                   key ∈ helperNames ∧ includes c key = true) as Hmem.
  { intros c key. unfold Angular.getAppropriateTemplateFunctionKeys.
    by rewrite list_elem_of_In, filter_In, <-list_elem_of_In. }
  assert (sublist (Angular.getAppropriateTemplateFunctionKeys code)
            helperNames) as Hsub by apply filter_sublist.
  split_and!; [by intros []|done|done| |].
  - eapply sublist_NoDup; [|exact Hsub].
    apply (bool_decide_unpack _). by vm_compute.
  - intros before after key [Hk Hi]%Hmem. apply Hmem. split; [done|].
    by apply includes_app_l, includes_app_r.
Qed.

(** X6: in the helper table, with and without TypeScript, the text of each
    helper starts with its own name and an opening parenthesis, and has as
    many [{] as [}]. The texts of [useObjectWrapper] and [setAttributes] have
    as many [(] as [)]; those of [useObjectDotValues], [useTypeOf] and
    [useJsonStringify] have one [)] more than [(]: their header closes the
    parameter list twice. *)
Theorem HELPER_FUNCTIONS_texts isTs key text :
  (key, text) ∈ Angular.HELPER_FUNCTIONS isTs →
  startsWith text (key +:+ "(") = true
  ∧ countChar "{" text = countChar "}" text
  ∧ countChar ")" text =
    countChar "(" text +
    (if bool_decide (key ∈ ["useObjectDotValues"; "useTypeOf";
                            "useJsonStringify"])
     then 1 else 0).
Proof.
  set (ok := λ e : string * string,
    startsWith e.2 (e.1 +:+ "(") &&
    bool_decide (countChar "{" e.2 = countChar "}" e.2) &&
    bool_decide (countChar ")" e.2 =
      countChar "(" e.2 +
      (if bool_decide (e.1 ∈ ["useObjectDotValues"; "useTypeOf";
                              "useJsonStringify"])
       then 1 else 0))).
  assert (forallb ok (Angular.HELPER_FUNCTIONS isTs) = true) as Hall.
  { destruct isTs; vm_compute; reflexivity. }
  intros Hin%list_elem_of_In. rewrite forallb_forall in Hall.
  apply Hall in Hin. unfold ok in Hin. cbn [fst snd] in Hin.
  apply andb_true_iff in Hin as [[H1 H2]%andb_true_iff H3].
  apply bool_decide_eq_true in H2, H3. done.
Qed.

Lemma HELPER_FUNCTIONS_texts_witness :
  startsWith
    (lines ["useTypeOf(obj: any): string) {"; "    return typeof obj;"; "  }"])
    "useTypeOf(" = true
  ∧ countChar ")"
      (lines ["useTypeOf(obj: any): string) {"; "    return typeof obj;";
              "  }"]) = 2
  ∧ countChar "("
      (lines ["useTypeOf(obj: any): string) {"; "    return typeof obj;";
              "  }"]) = 1.
Proof.
  destruct (HELPER_FUNCTIONS_texts true "useTypeOf"
    (lines ["useTypeOf(obj: any): string) {"; "    return typeof obj;";
            "  }"])) as (Hs & _ & Hp).
  - apply list_elem_of_In. right. right. left. reflexivity.
  - split; [exact Hs|]. vm_compute. split; reflexivity.
Defined.

Lemma getAppropriateTemplateFunctionKeys_witness :
  Angular.getAppropriateTemplateFunctionKeys
    "setAttributes(el, useObjectWrapper(a, b))" =
    ["useObjectWrapper"; "setAttributes"]
  ∧ "setAttributes" ∈ Angular.getAppropriateTemplateFunctionKeys
      ("<div>" +:+ "setAttributes(el, x)" +:+ "</div>").
Proof.
  split; [vm_compute; reflexivity|].
  apply (proj2 (proj2 (proj2 (proj2
    (getAppropriateTemplateFunctionKeys_spec "setAttributes(el, x)"))))).
  apply list_elem_of_In. vm_compute. left. reflexivity.
Defined.

(** ** [getDefaultProps] *)

Lemma string_app_inv_r (s t u : string) : s +:+ u = t +:+ u → s = t.
Proof.
  revert t. induction s as [|a s IH]; intros [|b t] Heq; [done| | |].
  - apply (f_equal String.length) in Heq.
    rewrite string_app_cons, string_app_nil_l in Heq. simpl in Heq.
    rewrite string_length_app in Heq. lia.
  - apply (f_equal String.length) in Heq.
    rewrite string_app_cons, string_app_nil_l in Heq. simpl in Heq.
    rewrite string_length_app in Heq. lia.
  - rewrite !string_app_cons in Heq. injection Heq as -> Heq.
    by rewrite (IH t Heq).
Qed.

(** X7: [getDefaultProps] gives the empty text for a component without
    default props and [const defaultProps = {};] for an empty table; a
    property prints as [name: code], as [name: undefined] when its value is
    [undefined]; the body for two non-empty runs of properties is the bodies
    of the runs with a comma between them. *)
Theorem getDefaultProps_spec :
  Angular.getDefaultProps None = ""
  ∧ Angular.getDefaultProps (Some []) = "const defaultProps = {};" +:+ LF
  ∧ (∀ prop v,
       Angular.getDefaultProps (Some [(prop, Some v)]) =
       "const defaultProps = {" +:+ prop +:+ ": " +:+ StateValue.code v
         +:+ "};" +:+ LF)
  ∧ (∀ prop,
       Angular.getDefaultProps (Some [(prop, None)]) =
       "const defaultProps = {" +:+ prop +:+ ": undefined" +:+ "};" +:+ LF)
  ∧ (∀ props1 props2 body1 body2,
       props1 ≠ [] → props2 ≠ [] →
       Angular.getDefaultProps (Some props1) =
         "const defaultProps = {" +:+ body1 +:+ "};" +:+ LF →
       Angular.getDefaultProps (Some props2) =
         "const defaultProps = {" +:+ body2 +:+ "};" +:+ LF →
       Angular.getDefaultProps (Some (props1 ++ props2)) =
         "const defaultProps = {" +:+ body1 +:+ "," +:+ body2
           +:+ "};" +:+ LF).
Proof.
  split_and!; [done|done| | |].
  - intros prop v. unfold Angular.getDefaultProps. cbn [map join String.concat].
    by rewrite !string_app_assoc.
  - intros prop. unfold Angular.getDefaultProps. cbn [map join String.concat].
    by rewrite !string_app_assoc.
  - intros props1 props2 body1 body2 H1 H2. unfold Angular.getDefaultProps.
    intros Hb1%(inj (String.app _)) Hb2%(inj (String.app _)).
    apply string_app_inv_r in Hb1, Hb2. rewrite map_app, join_app.
    + by rewrite Hb1, Hb2, !string_app_assoc.
    + by destruct props1.
    + by destruct props2.
Qed.

Lemma getDefaultProps_witness :
  Angular.getDefaultProps
    (Some ([("size", Some (StateValue.mk "'md'" property None))] ++
           [("label", None)])) =
  "const defaultProps = {size: 'md',label: undefined};" +:+ LF.
Proof.
  destruct getDefaultProps_spec as (_ & _ & Hone & Hnone & Happ).
  apply (Happ [("size", Some (StateValue.mk "'md'" property None))]
              [("label", None)] "size: 'md'" "label: undefined").
  - discriminate.
  - discriminate.
  - apply (Hone "size" (StateValue.mk "'md'" property None)).
  - apply (Hnone "label").
Defined.

(** ** The state declaration of the React variants and its import *)

Section React_variant_facts.
Import React.
Variable Ignored : Type.
Variable getStateObjectStringFromComponent :
  MitosisComponent → option (StateObjectStringOptions.t Ignored) → string.
Variable getFunctionString : string → string.

#[local] Abbreviation getReactVariantStateString :=
  (getReactVariantStateString Ignored getStateObjectStringFromComponent
     getFunctionString).
#[local] Abbreviation variablesValueMapper :=
  (variablesValueMapper Ignored getFunctionString).

(** X8: the import text is empty exactly when the component has no state or
    the state type is [useState], [builder] or [variables]. *)
Theorem getReactVariantStateImportString_empty hasState options :
  getReactVariantStateImportString hasState options = "" ↔
  hasState = false ∨ stateType options = useState ∨
  stateType options = builder ∨ stateType options = variables.
Proof.
  unfold getReactVariantStateImportString.
  destruct hasState; cbn [negb]; [|by split; auto].
  destruct (stateType options); cbn; split; intros H; try done; auto;
    destruct H as [?|[?|[?|?]]]; done.
Qed.

(** X9: without state both texts are empty. With state, under [mobx], [solid]
    and [valtio] the declaration is [const state = <hook>(...)] for the hook
    that the import text of the same options brings in; under [builder] it
    calls [useBuilderState], for which the import text has nothing; under
    [useState] it is the text it was given, and the component and the state
    object helper are not looked at. *)
Theorem getReactVariantStateString_hook options json useStateCode :
  (getReactVariantStateString false options json useStateCode = "" ∧
   getReactVariantStateImportString false options = "")
  ∧ (stateType options = useState →
     getReactVariantStateString true options json useStateCode = useStateCode)
  ∧ (stateType options = mobx ∨ stateType options = solid ∨
     stateType options = valtio →
     ∃ hook rest,
       getReactVariantStateString true options json useStateCode =
         "const state = " +:+ hook +:+ "(" +:+ rest ∧
       startsWith (getReactVariantStateImportString true options)
         ("import { " +:+ hook) = true)
  ∧ (stateType options = builder →
     getReactVariantStateString true options json useStateCode =
       "const state = useBuilderState("
         +:+ getStateObjectStringFromComponent json None +:+ ");" ∧
     getReactVariantStateImportString true options = "").
Proof.
  unfold React.getReactVariantStateString, getReactVariantStateImportString.
  split_and!; [done|done|by intros ->| |by intros ->].
  intros [Hs|[Hs|Hs]]; rewrite Hs; cbn.
  - exists "useLocalObservable". by eexists.
  - exists "useMutable". by eexists.
  - exists "useLocalProxy". by eexists.
Qed.

(** X10: the value mapper of the [variables] state type returns the code as
    it is when there is no key, when the entry is neither a getter nor a
    function, and for a function whose code starts with [async]. A getter
    [get <body>] with the key [k] becomes [k = ] followed by the function
    text of [<body>]; a function with the key [k] becomes the function text
    of its code, after [k = ] unless the code starts with [function]. *)
Theorem variablesValueMapper_spec code type ignored key :
  (key = None ∨ key = Some "" →
   variablesValueMapper code type ignored key = code)
  ∧ (type ≠ "getter" → type ≠ "function" →
     variablesValueMapper code type ignored key = code)
  ∧ (startsWith code "async" = true →
     variablesValueMapper code "function" ignored key = code)
  ∧ (∀ k body, k ≠ "" →
       variablesValueMapper ("get " +:+ body) "getter" ignored (Some k) =
       k +:+ " = " +:+ getFunctionString body)
  ∧ (∀ k, k ≠ "" → startsWith code "async" = false →
       variablesValueMapper code "function" ignored (Some k) =
       (if startsWith code "function" then "" else k +:+ " = ")
         +:+ getFunctionString code).
Proof.
  unfold React.variablesValueMapper. split_and!.
  - by intros [-> | ->].
  - intros Hg Hf. destruct key as [k|]; [|done].
    destruct (truthy k); [|done]. by rewrite !decide_False.
  - intros Ha. destruct key as [k|]; [|done].
    destruct (truthy k); [|done]. cbn. by rewrite Ha.
  - intros k body Hk. destruct k as [|c k]; [done|].
    cbn [truthy]. rewrite decide_True by done.
    change (replaceFirst ("get " +:+ body) "get " "") with ("" +:+ body).
    change (startsWith ("get " +:+ body) "function") with false.
    cbn [negb]. by rewrite string_app_nil_l, string_app_assoc.
  - intros k Hk Ha. destruct k as [|c k]; [done|].
    cbn [truthy]. cbn. rewrite Ha. by destruct (startsWith code "function").
Qed.

End React_variant_facts.

Lemma getReactVariantStateImportString_empty_witness :
  React.getReactVariantStateImportString true
    {| React.stateType := React.builder; React.typescript := false |} = "".
Proof.
  apply (proj2 (getReactVariantStateImportString_empty true
    {| React.stateType := React.builder; React.typescript := false |})).
  right. right. left. reflexivity.
Defined.

Lemma getReactVariantStateString_hook_witness :
  ∃ hook rest,
    React.getReactVariantStateString unit (λ _ _, "{ n: 1 }") (λ s, s) true
      {| React.stateType := React.solid; React.typescript := false |}
      Examples.counter "" =
      "const state = " +:+ hook +:+ "(" +:+ rest ∧
    startsWith
      (React.getReactVariantStateImportString true
         {| React.stateType := React.solid; React.typescript := false |})
      ("import { " +:+ hook) = true.
Proof.
  apply (proj1 (proj2 (proj2 (getReactVariantStateString_hook unit
    (λ _ _, "{ n: 1 }") (λ s, s)
    {| React.stateType := React.solid; React.typescript := false |}
    Examples.counter "")))).
  right. left. reflexivity.
Defined.

Lemma variablesValueMapper_witness :
  React.variablesValueMapper unit (λ s, "function " +:+ s)
    "get double() { return n * 2 }" "getter" tt (Some "double") =
    "double = function double() { return n * 2 }"
  ∧ React.variablesValueMapper unit (λ s, "function " +:+ s)
      "async function load() {}" "function" tt (Some "load") =
    "async function load() {}".
Proof.
  destruct (variablesValueMapper_spec unit (λ s, "function " +:+ s)
    "async function load() {}" "function" tt (Some "load"))
    as (_ & _ & Hasync & Hget & _).
  split.
  - apply (Hget "double" "double() { return n * 2 }"). discriminate.
  - apply Hasync. reflexivity.
Defined.

(** ** [updateStateSetters]: what the traversal keeps *)

Section updateStateSetters_facts.
Import React Tree.
Variable parse : string → Expression.
Variable generate : Expression → string.
Variable stateFieldName : Expression → option string.

#[local] Abbreviation updateStateSettersInCode :=
  (updateStateSettersInCode parse generate stateFieldName).
#[local] Abbreviation updateBinding :=
  (updateBinding parse generate stateFieldName).
#[local] Abbreviation updateNode :=
  (updateNode parse generate stateFieldName).
#[local] Abbreviation updateStateSetters :=
  (updateStateSetters parse generate stateFieldName).

Lemma updateBinding_with_code options b :
  updateBinding options b =
  Binding.with_code (updateStateSettersInCode (Binding.code b) options) b.
Proof.
  unfold React.updateBinding. case_decide as Hne; [done|].
  destruct (decide (updateStateSettersInCode (Binding.code b) options =
                    Binding.code b)) as [->|]; [|done].
  by destruct b.
Qed.

Lemma childAt_updateNode options i n :
  childAt i (updateNode options n) = updateNode options <$> childAt i n.
Proof.
  destruct n as [nm b [cs|]]; [|done]. unfold childAt.
  cbn [React.updateNode children fmap option_fmap option_map].
  apply (list_lookup_fmap (updateNode options) cs i).
Qed.

Lemma nodeAt_updateNode options path n :
  nodeAt path (updateNode options n) = updateNode options <$> nodeAt path n.
Proof.
  revert n. induction path as [|i path IH]; intros n; [done|].
  cbn [nodeAt]. rewrite childAt_updateNode.
  destruct (childAt i n) as [c|]; [|done]. apply IH.
Qed.

Lemma bindingAt_updateNode options key n :
  bindingAt key (updateNode options n) =
  updateBinding options <$> bindingAt key n.
Proof.
  destruct n as [nm [bs|] cs]; [|done]. unfold bindingAt.
  cbn [React.updateNode bindings fmap option_fmap option_map].
  apply lookup_fmap.
Qed.

(** X11: under every state type, [updateStateSetters] leaves the state and
    the hooks alone and keeps the tree: there is a node under a path after
    the traversal exactly when there was one before, with the same name and
    as many children, and each of its bindings is the binding it had under
    the same key with [updateStateSettersInCode] applied to its code, the
    arguments being kept. *)
Theorem updateStateSetters_keeps_tree options json root path :
  state (updateStateSetters json options) = state json
  ∧ hooks (updateStateSetters json options) = hooks json
  ∧ match componentNodeAt root path json with
    | Some n =>
      ∃ n',
        componentNodeAt root path (updateStateSetters json options) =
          Some n' ∧
        name n' = name n ∧
        length <$> children n' = length <$> children n ∧
        ∀ key,
          bindingAt key n' =
          (λ b, {| Binding.code :=
                     updateStateSettersInCode (Binding.code b) options;
                   Binding.arguments := Binding.arguments b |})
          <$> bindingAt key n
    | None =>
      componentNodeAt root path (updateStateSetters json options) = None
    end.
Proof.
  unfold React.updateStateSetters. case_decide as Hst.
  - split_and!; [done..|].
    destruct (componentNodeAt root path json) as [n|]; [|done].
    exists n. split_and!; [done..|]. intros key.
    destruct (bindingAt key n) as [b|]; [|done]. cbn. f_equal.
    unfold React.updateStateSettersInCode. rewrite decide_True by done.
    by destruct b.
  - split_and!; [done..|]. unfold componentNodeAt. cbn [nodes].
    change (map (updateNode options) (nodes json))
      with (updateNode options <$> nodes json).
    rewrite list_lookup_fmap.
    destruct (nodes json !! root) as [r|]; [|done].
    cbn [fmap option_fmap option_map]. rewrite nodeAt_updateNode.
    destruct (nodeAt path r) as [n|]; [|done].
    eexists. split; [done|]. split_and!.
    + by destruct n.
    + destruct n as [nm b [cs|]]; [|done]. cbn. f_equal.
      apply length_fmap.
    + intros key. rewrite bindingAt_updateNode.
      destruct (bindingAt key n) as [b|]; [|done]. cbn.
      by rewrite updateBinding_with_code.
Qed.

End updateStateSetters_facts.

Lemma updateStateSetters_keeps_tree_witness :
  ∃ n',
    Tree.componentNodeAt 0 []
      (React.updateStateSetters Examples.parse Examples.generate
         Examples.stateFieldName Examples.counter
         {| React.stateType := React.useState; React.typescript := false |}) =
      Some n' ∧
    name n' = "button" ∧
    Tree.bindingAt "onClick" n' =
      Some (Binding.mk "setCount(count + 1)" None).
Proof.
  destruct (updateStateSetters_keeps_tree Examples.parse Examples.generate
    Examples.stateFieldName
    {| React.stateType := React.useState; React.typescript := false |}
    Examples.counter 0 []) as (_ & _ & n' & Hn & Hname & _ & Hb).
  exists n'. split; [exact Hn|]. split; [exact Hname|].
  rewrite (Hb "onClick"). vm_compute. reflexivity.
Defined.
